(** * Claim-status toolkit: decoder, payer resolver and batch engine

    A shallow embedding of three parts of the repository:

    - [converter_service.py]  ([X12ClaimParser]): the X12 277 decoder and
      its text rendering;
    - [payer_lookup.py] / [claim_service.py] ([get_trading_partner_id]):
      the staged payer-name resolver;
    - [claim_service.py] / [processor.py]: payload construction and the
      concurrent batch submission loops.

    Python [str] values are modelled as [string] over 7-bit ASCII text
    (code points above 127 are outside the model), dictionaries with a
    fixed key set as records, [set] as [gset], tabular rows as [gmap]. *)

From Stdlib Require Import Ascii String ZArith NArith DecimalString.
From stdpp Require Import gmap strings list sorting.

Local Open Scope nat_scope.

(** ** Python string primitives *)

Module Py.

(** [bool(s)] for a string: non-empty. *)
Definition truthy (s : string) : bool :=
  match s with EmptyString => false | String _ _ => true end.

Definition code (c : ascii) : N := N_of_ascii c.

(** [str.isspace] on ASCII: TAB..CR, FS..US and the blank. *)
Definition is_space (c : ascii) : bool :=
  let n := code c in
  ((9 <=? n) && (n <=? 13) || (28 <=? n) && (n <=? 32))%N.

(** The class [\w] on ASCII: letters, digits and the underscore. *)
Definition is_word (c : ascii) : bool :=
  let n := code c in
  ((48 <=? n) && (n <=? 57) || (65 <=? n) && (n <=? 90)
   || (97 <=? n) && (n <=? 122) || (n =? 95))%N.

Definition upper_char (c : ascii) : ascii :=
  let n := code c in
  if ((97 <=? n) && (n <=? 122))%N then ascii_of_N (n - 32) else c.

Fixpoint upper (s : string) : string :=
  match s with
  | EmptyString => EmptyString
  | String c r => String (upper_char c) (upper r)
  end.

(** [s.replace(old, new)] for a one-character [old]. *)
Fixpoint replace (old : ascii) (new : string) (s : string) : string :=
  match s with
  | EmptyString => EmptyString
  | String c r =>
      if Ascii.eqb c old then new +:+ replace old new r
      else String c (replace old new r)
  end.

(** [s.split(sep)] for a one-character [sep]; never returns []. *)
Fixpoint split (sep : ascii) (s : string) : list string :=
  match s with
  | EmptyString => [EmptyString]
  | String c r =>
      if Ascii.eqb c sep then EmptyString :: split sep r
      else match split sep r with
           | [] => [String c EmptyString]
           | w :: ws => String c w :: ws
           end
  end.

Fixpoint lstrip (s : string) : string :=
  match s with
  | EmptyString => EmptyString
  | String c r => if is_space c then lstrip r else s
  end.

Fixpoint rstrip (s : string) : string :=
  match s with
  | EmptyString => EmptyString
  | String c r =>
      match rstrip r with
      | EmptyString => if is_space c then EmptyString else String c EmptyString
      | r' => String c r'
      end
  end.

Definition strip (s : string) : string := rstrip (lstrip s).

(** [needle in hay]. *)
Fixpoint contains (needle hay : string) : bool :=
  String.prefix needle hay ||
  match hay with
  | EmptyString => false
  | String _ r => contains needle r
  end.

(** [s[i:j]] for [0 <= i <= j]. *)
Definition slice (i j : nat) (s : string) : string :=
  String.substring i (j - i) s.

(** [s.split()] with no argument: the maximal blank-free runs. *)
Fixpoint words_go (cur : option string) (s : string) : list string :=
  match s with
  | EmptyString =>
      match cur with Some w => [String.rev w] | None => [] end
  | String c r =>
      if is_space c then
        match cur with
        | Some w => String.rev w :: words_go None r
        | None => words_go None r
        end
      else words_go (Some (String c (default EmptyString cur))) r
  end.
Definition words (s : string) : list string := words_go None s.

(** [str(n)] for a non-negative integer. *)
Definition str_of_nat (n : nat) : string :=
  NilZero.string_of_uint (Nat.to_uint n).

(** ["sep".join(l)]. *)
Fixpoint join (sep : string) (l : list string) : string :=
  match l with
  | [] => EmptyString
  | [x] => x
  | x :: r => x +:+ sep +:+ join sep r
  end.

End Py.

(** ** The claim-status decoder ([converter_service.py]) *)

Module Converter.

(** The three dictionaries the parser builds; every key is written at
    construction, so each is a record.  ['_pending_dos'] is the one key
    that is added and deleted: an [option]. *)
Record Adjustment := mkAdjustment {
  a_status_code : string;
  a_reason_code : string;
  a_amount : string;
  a_entity_code : string }.

Record ServiceLine := mkServiceLine {
  s_cpt_code : string;
  s_modifier : string;
  s_charge : string;
  s_paid : string;
  s_dos : string;
  s_adjustments : list Adjustment;
  s_status_code : string;
  s_status_code2 : string }.

Record Claim := mkClaim {
  c_claim_number : string;
  c_status_code : string;
  c_status_code2 : string;
  c_total_charge : string;
  c_paid_amount : string;
  c_patient_name : string;
  c_patient_id : string;
  c_services : list ServiceLine;
  c_claim_adjustments : list Adjustment;
  c_check_number : string;
  c_check_date : string;
  c_adjudication_date : string;
  c_pending_dos : option string }.

(** An entry of [hierarchical_levels] (its ['data'] stays empty). *)
Record HLEntry := mkHL { hl_parent : string; hl_level : string }.

(** [segments[i] if len(segments) > i else d]. *)
Definition field (segments : list string) (i : nat) (d : string) : string :=
  nth i segments d.

(** [f"{d[4:6]}/{d[6:8]}/{d[0:4]}"]. *)
Definition format_date (d : string) : string :=
  Py.slice 4 6 d +:+ "/" +:+ Py.slice 6 8 d +:+ "/" +:+ Py.slice 0 4 d.

Definition new_claim : Claim :=
  {| c_claim_number := ""; c_status_code := ""; c_status_code2 := "";
     c_total_charge := "0.00"; c_paid_amount := "0.00";
     c_patient_name := ""; c_patient_id := "";
     c_services := []; c_claim_adjustments := [];
     c_check_number := ""; c_check_date := "";
     c_adjudication_date := ""; c_pending_dos := None |}.

Definition set_services (c : Claim) (l : list ServiceLine) : Claim :=
  {| c_claim_number := c_claim_number c; c_status_code := c_status_code c;
     c_status_code2 := c_status_code2 c; c_total_charge := c_total_charge c;
     c_paid_amount := c_paid_amount c; c_patient_name := c_patient_name c;
     c_patient_id := c_patient_id c; c_services := l;
     c_claim_adjustments := c_claim_adjustments c;
     c_check_number := c_check_number c; c_check_date := c_check_date c;
     c_adjudication_date := c_adjudication_date c;
     c_pending_dos := c_pending_dos c |}.

Definition set_pending_dos (c : Claim) (p : option string) : Claim :=
  {| c_claim_number := c_claim_number c; c_status_code := c_status_code c;
     c_status_code2 := c_status_code2 c; c_total_charge := c_total_charge c;
     c_paid_amount := c_paid_amount c; c_patient_name := c_patient_name c;
     c_patient_id := c_patient_id c; c_services := c_services c;
     c_claim_adjustments := c_claim_adjustments c;
     c_check_number := c_check_number c; c_check_date := c_check_date c;
     c_adjudication_date := c_adjudication_date c;
     c_pending_dos := p |}.

Definition set_claim_number (c : Claim) (n : string) : Claim :=
  {| c_claim_number := n; c_status_code := c_status_code c;
     c_status_code2 := c_status_code2 c; c_total_charge := c_total_charge c;
     c_paid_amount := c_paid_amount c; c_patient_name := c_patient_name c;
     c_patient_id := c_patient_id c; c_services := c_services c;
     c_claim_adjustments := c_claim_adjustments c;
     c_check_number := c_check_number c; c_check_date := c_check_date c;
     c_adjudication_date := c_adjudication_date c;
     c_pending_dos := c_pending_dos c |}.

Definition set_patient (c : Claim) (name id : string) : Claim :=
  {| c_claim_number := c_claim_number c; c_status_code := c_status_code c;
     c_status_code2 := c_status_code2 c; c_total_charge := c_total_charge c;
     c_paid_amount := c_paid_amount c; c_patient_name := name;
     c_patient_id := id; c_services := c_services c;
     c_claim_adjustments := c_claim_adjustments c;
     c_check_number := c_check_number c; c_check_date := c_check_date c;
     c_adjudication_date := c_adjudication_date c;
     c_pending_dos := c_pending_dos c |}.

(** The open service line is the dictionary most recently appended to
    the open claim's ['services'] list: [current_service] and the list
    cell are one object.  The reference is modelled by the cell's
    position, and a write through [current_service] as a write to that
    cell.  A reference exists only while its claim is open and always
    points at the last cell (lemma [open_service_is_last]). *)
Record PState := mkPState {
  claims : list Claim;
  current_claim : option Claim;
  current_service : option nat;
  hierarchical_levels : gmap string HLEntry }.

(** *** Service-level [STC] (lines 79-117) *)

Definition status_positions : list nat := [1; 10; 11].

Definition append_adjustment (svc : ServiceLine)
    (status_code reason_code entity_code : string) : ServiceLine :=
  {| s_cpt_code := s_cpt_code svc; s_modifier := s_modifier svc;
     s_charge := s_charge svc; s_paid := s_paid svc; s_dos := s_dos svc;
     s_adjustments :=
       s_adjustments svc ++
       [ {| a_status_code := status_code; a_reason_code := reason_code;
            a_amount := s_charge svc;
            a_entity_code :=
              if Py.truthy entity_code then entity_code else "1P" |} ];
     s_status_code :=
       if Py.truthy (s_status_code svc) then s_status_code svc
       else status_code;
     s_status_code2 :=
       if Py.truthy (s_status_code2 svc) then s_status_code2 svc
       else reason_code |}.

(** The sub-fields of one candidate position. *)
Definition status_info_of (fld : string) : string * string * string :=
  let status_info := Py.split ":" fld in
  (nth 0 status_info "", nth 1 status_info "",
   if 2 <? length status_info then nth 2 status_info "" else "1P").

Definition adj_key_of (t : string * string * string) : string :=
  let '(status_code, reason_code, entity_code) := t in
  status_code +:+ ":" +:+ reason_code +:+ ":" +:+ entity_code.

(** One iteration of [for pos in status_positions]. *)
Definition stc_position (segments : list string)
    (acc : gset string * ServiceLine) (pos : nat)
    : gset string * ServiceLine :=
  let '(adjustment_keys, svc) := acc in
  if Py.truthy (field segments pos "") then
    let '(status_code, reason_code, entity_code) :=
      status_info_of (field segments pos "") in
    if Py.truthy status_code || Py.truthy reason_code then
      let adj_key := adj_key_of (status_code, reason_code, entity_code) in
      if decide (adj_key ∈ adjustment_keys) then acc
      else ({[adj_key]} ∪ adjustment_keys,
            append_adjustment svc status_code reason_code entity_code)
    else acc
  else acc.

(** The whole branch: [adjustment_keys] starts empty at every segment. *)
Definition stc_service (segments : list string) (svc : ServiceLine)
    : ServiceLine :=
  snd (fold_left (stc_position segments) status_positions (∅, svc)).

(** *** Claim-level [STC] (lines 119-143) *)

Definition stc_claim (segments : list string) (c : Claim) : Claim :=
  let status_info := Py.split ":" (field segments 1 "") in
  let sc := if 1 <? length segments then nth 0 status_info ""
            else c_status_code c in
  let sc2 := if 1 <? length segments then nth 1 status_info ""
             else c_status_code2 c in
  let date_str := field segments 2 "" in
  let adj := if Py.truthy date_str && (String.length date_str =? 8)
             then format_date date_str else c_adjudication_date c in
  let total := if Py.truthy (field segments 4 "") then field segments 4 ""
               else c_total_charge c in
  {| c_claim_number := c_claim_number c; c_status_code := sc;
     c_status_code2 := sc2; c_total_charge := total;
     c_paid_amount := c_paid_amount c; c_patient_name := c_patient_name c;
     c_patient_id := c_patient_id c; c_services := c_services c;
     c_claim_adjustments :=
       c_claim_adjustments c ++
       [ {| a_status_code := sc; a_reason_code := sc2;
            a_amount := total; a_entity_code := "" |} ];
     c_check_number := c_check_number c; c_check_date := c_check_date c;
     c_adjudication_date := adj;
     c_pending_dos := c_pending_dos c |}.

(** *** [DTP] (lines 152-176) *)

Definition dtp_formatted_date (date_format date_value : string)
    : option string :=
  if String.eqb date_format "D8" && (String.length date_value =? 8) then
    Some (format_date date_value)
  else if String.eqb date_format "RD8" && Py.contains "-" date_value then
    let start_date := nth 0 (Py.split "-" date_value) "" in
    if String.length start_date =? 8 then Some (format_date start_date)
    else None
  else None.

Definition set_dos (d : string) (svc : ServiceLine) : ServiceLine :=
  {| s_cpt_code := s_cpt_code svc; s_modifier := s_modifier svc;
     s_charge := s_charge svc; s_paid := s_paid svc; s_dos := d;
     s_adjustments := s_adjustments svc;
     s_status_code := s_status_code svc;
     s_status_code2 := s_status_code2 svc |}.

Definition dtp (segments : list string) (c : Claim)
    (current_service : option nat) : Claim :=
  let date_qualifier := field segments 1 "" in
  let date_format := field segments 2 "" in
  let date_value := field segments 3 "" in
  if String.eqb date_qualifier "472" then
    match dtp_formatted_date date_format date_value with
    | Some formatted_date =>
        if Py.truthy formatted_date then
          match current_service with
          | Some i => set_services c (alter (set_dos formatted_date) i (c_services c))
          | None =>
              match c_pending_dos c with
              | None => set_pending_dos c (Some formatted_date)
              | Some _ => c
              end
          end
        else c
    | None => c
    end
  else c.

(** *** [SVC] (lines 179-207) *)

Definition svc_new (segments : list string) (c : Claim) : ServiceLine :=
  let cpt_parts := Py.split ":" (field segments 1 "") in
  let cpt_code :=
    if 1 <? length segments then
      if 3 <=? length cpt_parts then nth 1 cpt_parts ""
      else if length cpt_parts =? 2 then nth 1 cpt_parts ""
      else field segments 1 ""
    else "" in
  let modifier :=
    if (1 <? length segments) && (3 <=? length cpt_parts)
    then nth 2 cpt_parts "" else "" in
  {| s_cpt_code := cpt_code; s_modifier := modifier;
     s_charge := field segments 2 "0.00";
     s_paid := field segments 3 "0.00";
     s_dos := default "" (c_pending_dos c);
     s_adjustments := []; s_status_code := ""; s_status_code2 := "" |}.

Definition svc (segments : list string) (c : Claim) : Claim :=
  set_services (set_pending_dos c None) (c_services c ++ [svc_new segments c]).

(** *** The dispatch on the segment tag (lines 29-207) *)

(** A write to the open claim through [current_claim]. *)
Definition with_claim (st : PState) (f : Claim → Claim) : PState :=
  {| claims := claims st; current_claim := f <$> current_claim st;
     current_service := current_service st;
     hierarchical_levels := hierarchical_levels st |}.

(** The [if]/[elif] chain, in the order of the source.  A dictionary
    with keys is truthy, so [and current_claim] and
    [and current_service] test for [None]. *)
Definition process_segments (segments : list string) (st : PState) : PState :=
  let segment_id := nth 0 segments "" in
  let has_claim := bool_decide (is_Some (current_claim st)) in
  let has_service := bool_decide (is_Some (current_service st)) in
  if String.eqb segment_id "HL" then
    let hl_id := field segments 1 "" in
    let parent_id := field segments 2 "" in
    let level_code := field segments 3 "" in
    let levels :=
      <[hl_id := mkHL parent_id level_code]> (hierarchical_levels st) in
    if String.eqb level_code "22" then
      {| claims := match current_claim st with
                   | Some c => claims st ++ [c]
                   | None => claims st
                   end;
         current_claim := Some new_claim;
         current_service := None;
         hierarchical_levels := levels |}
    else
      {| claims := claims st; current_claim := current_claim st;
         current_service := current_service st;
         hierarchical_levels := levels |}
  else if String.eqb segment_id "NM1" && has_claim then
    if String.eqb (field segments 1 "") "IL" then
      let last_name := field segments 3 "" in
      let first_name := field segments 4 "" in
      let patient_id := field segments 9 "" in
      with_claim st (fun c =>
        set_patient c (Py.strip (first_name +:+ " " +:+ last_name))
                    patient_id)
    else st
  else if String.eqb segment_id "TRN" && has_claim then
    if 2 <? length segments
    then with_claim st (fun c => set_claim_number c (nth 2 segments ""))
    else st
  else if String.eqb segment_id "STC" && has_service then
    match current_service st with
    | Some i =>
        with_claim st (fun c =>
          set_services c (alter (stc_service segments) i (c_services c)))
    | None => st
    end
  else if String.eqb segment_id "STC" && has_claim then
    with_claim st (stc_claim segments)
  else if String.eqb segment_id "REF" && has_claim then
    if String.eqb (field segments 1 "") "1K"
    then with_claim st (fun c => set_claim_number c (field segments 2 ""))
    else st
  else if String.eqb segment_id "DTP" && has_claim then
    with_claim st (fun c => dtp segments c (current_service st))
  else if String.eqb segment_id "SVC" && has_claim then
    match current_claim st with
    | Some c =>
        {| claims := claims st;
           current_claim := Some (svc segments c);
           current_service := Some (length (c_services c));
           hierarchical_levels := hierarchical_levels st |}
    | None => st
    end
  else st.

(** The body of [for line in lines]. *)
Definition process_line (st : PState) (line : string) : PState :=
  let line := Py.strip line in
  if negb (Py.truthy line) || String.eqb line "~" then st
  else process_segments (Py.split "*" (Py.replace "~" "" line)) st.

(** *** The parser object *)

Record X12ClaimParser := mkParser {
  x12_content : string;
  self_claims : list Claim }.

(** [__init__]. *)
Definition init (x12 : string) : X12ClaimParser :=
  {| x12_content := x12; self_claims := [] |}.

Definition nl : string := String (ascii_of_nat 10) EmptyString.

(** The loop of [parse] and the final commit, run over the list
    [self.claims] as it stands at the call. *)
Definition parse_text (self_claims0 : list Claim) (x12 : string)
    : list Claim :=
  let content := Py.replace "~" ("~" +:+ nl) x12 in
  let lines := Py.split (ascii_of_nat 10) content in
  let st := fold_left process_line lines
              {| claims := self_claims0; current_claim := None;
                 current_service := None; hierarchical_levels := ∅ |} in
  match current_claim st with
  | Some c => claims st ++ [c]
  | None => claims st
  end.

(** [parse]: returns [self.claims] and leaves the parser updated. *)
Definition parse (p : X12ClaimParser) : list Claim * X12ClaimParser :=
  let out := parse_text (self_claims p) (x12_content p) in
  (out, {| x12_content := x12_content p; self_claims := out |}).

(** Decoding a transaction text: a fresh parser, then [parse], as the
    batch engine does for every response. *)
Definition decode (x12 : string) : list Claim := fst (parse (init x12)).

(** The parser objects a process has created so far; a decode call
    allocates its own. *)
Definition decode_in (heap : list X12ClaimParser) (x12 : string)
    : list Claim * list X12ClaimParser :=
  let '(out, p) := parse (init x12) in (out, heap ++ [p]).

(** *** Vocabulary of the statements *)

(** The triple that identifies an adjustment. *)
Definition adj_triple (a : Adjustment) : string * string * string :=
  (a_status_code a, a_reason_code a, a_entity_code a).

(** The adjustments one service-level [STC] segment appends. *)
Definition added_adjustments (segments : list string) (svc : ServiceLine)
    : list Adjustment :=
  drop (length (s_adjustments svc)) (s_adjustments (stc_service segments svc)).

(** The entity code an adjustment gets from a candidate field: its third
    sub-field, or 1P when that is absent or empty. *)
Definition entity_default (fld : string) : string :=
  let parts := Py.split ":" fld in
  if (2 <? length parts) && Py.truthy (nth 2 parts "") then nth 2 parts ""
  else "1P".

Definition adjustment_of_candidate (svc : ServiceLine) (fld : string)
    : Adjustment :=
  {| a_status_code := nth 0 (Py.split ":" fld) "";
     a_reason_code := nth 1 (Py.split ":" fld) "";
     a_amount := s_charge svc;
     a_entity_code := entity_default fld |}.

(** Entity codes of a decoded claim: empty at claim level, never empty
    at service level. *)
Definition entity_codes_ok (c : Claim) : Prop :=
  Forall (fun a => a_entity_code a = "") (c_claim_adjustments c) ∧
  Forall (fun s => Forall (fun a => a_entity_code a ≠ "") (s_adjustments s))
         (c_services c).

(** The transaction of the decoder example. *)
Definition sample_277 : string :=
  "HL*4*3*22*0~NM1*IL*1*HECTOR*HECTOR****MI*U5105280302~TRN*2*ABC123~STC*F2:542*20251031**1293.81*0*20250924~DTP*472*D8*20250725~SVC*HC:A4604*181.38*0****1~".

(** One service line followed by two [STC] segments with the same
    status. *)
Definition repeated_stc_277 : string :=
  "HL*4*3*22*0~SVC*HC:A4604*181.38*0****1~STC*F2:171*20250924~STC*F2:171*20250924~".

(** A service-level [STC] carrying the same status at positions 1, 10
    and 11, the last with the entity written out. *)
Definition triple_stc_segments : list string :=
  ["STC"; "F2:171"; "20250924"; ""; ""; ""; ""; ""; ""; ""; "F2:171"; "F2:171:1P"].

(** A parser state whose committed list is preceded by [acc]. *)
Definition prefix_claims (acc : list Claim) (st : PState) : PState :=
  {| claims := acc ++ claims st; current_claim := current_claim st;
     current_service := current_service st;
     hierarchical_levels := hierarchical_levels st |}.

(** The service line opened by a sample [SVC] segment. *)
Definition sample_service : ServiceLine :=
  svc_new ["SVC"; "HC:A4604"; "181.38"; "0"] new_claim.

(** *** Rendering ([format_output], lines 223-294)

    [X12Labels] ([app.config.edl_config]) is not part of the sources:
    its two lookups are parameters. *)
Section Render.
Variable get_status_code : string → string.
Variable get_reason_code : string → string.

(** [x or 'NA']. *)
Definition or_NA (x : string) : string :=
  if Py.truthy x then x else "NA".

Definition adjustment_text (adj : Adjustment) : string :=
  " - " +:+ a_reason_code adj +:+ " - " +:+
  get_reason_code (a_reason_code adj) +:+ ",  - " +:+
  a_entity_code adj +:+ " - " +:+ get_reason_code (a_entity_code adj).

Definition cpt_line (svc_idx : nat) (service : ServiceLine) : string :=
  "CPT " +:+ Py.str_of_nat svc_idx +:+ "-" +:+ s_cpt_code service +:+
  Py.join "" (adjustment_text <$> s_adjustments service).

Definition service_parts (service : ServiceLine) : list string :=
  [ " DOS " +:+ or_NA (s_dos service);
    "CPT " +:+ s_cpt_code service +:+
      (if Py.truthy (s_modifier service)
       then "(" +:+ s_modifier service +:+ ")" else "");
    "Paid $" +:+ s_paid service ] ++
  mjoin ((fun adj =>
      [ a_reason_code adj +:+ " - " +:+ get_reason_code (a_reason_code adj);
        "";
        a_entity_code adj +:+ " - " +:+ get_reason_code (a_entity_code adj);
        "";
        s_status_code service +:+ " - " +:+
          get_status_code (s_status_code service) ])
    <$> s_adjustments service).

(** The lines one claim adds to [output]; [idx] counts from 1. *)
Definition claim_output (idx : nat) (claim : Claim) : list string :=
  let claim_num := "Claim " +:+ Py.str_of_nat idx in
  let total := c_total_charge claim in
  let status_code := c_status_code claim in
  let status_desc := get_status_code status_code in
  let reason_line :=
    claim_num +:+ " -  " +:+ c_status_code2 claim +:+ " - " +:+
    get_reason_code (c_status_code2 claim) in
  let detail_parts :=
    [ claim_num +:+ ": The Claim for $" +:+ total +:+ " adjudicated on " +:+
        or_NA (c_adjudication_date claim);
      "Paid $" +:+ c_paid_amount claim;
      "EFT/Check# " +:+ or_NA (c_check_number claim);
      "EFT/Check Dt. " +:+ or_NA (c_check_date claim);
      "Claim# " +:+ c_claim_number claim;
      status_code +:+ " - " +:+ status_desc ] ++
    (if Py.truthy (c_status_code2 claim)
     then [ " " +:+ c_status_code2 claim +:+ " - " +:+
            get_reason_code (c_status_code2 claim) ]
     else []) ++
    ((fun service => Py.join "; " (service_parts service) +:+ ";")
       <$> c_services claim) in
  [ claim_num +:+ " - $" +:+ total +:+ ": " +:+ status_code +:+
    " (" +:+ status_desc +:+ ")" ] ++
  (if Py.truthy (c_status_code2 claim) then [reason_line] else []) ++
  (match c_services claim with
   | [] => []
   | _ => (claim_num +:+ ":") ::
          imap (fun i service => cpt_line (S i) service) (c_services claim)
   end) ++
  [ Py.join "; " detail_parts +:+ ";"; "" ].

Definition format_output (p : X12ClaimParser) : string :=
  Py.join nl (mjoin (imap (fun i c => claim_output (S i) c) (self_claims p))).

(** What the batch engine does with a response body:
    [parser = X12ClaimParser(x12); parser.parse(); parser.format_output()]. *)
Definition render_x12 (x12 : string) : string :=
  format_output (snd (parse (init x12))).
End Render.

End Converter.

(** ** The payer resolver ([payer_lookup.py], [claim_service.py])

    The matching code of [PayerLookupService.get_trading_partner_id] and
    of [ClaimService.get_trading_partner_id] is the same text; the two
    differ in the directory lookup that supplies the table. *)

Module Resolver.

(** A row of the table built by the directory lookup.  A cell that is
    null fails [pd.notna]: [None]. *)
Record PayerRecord := mkPayer {
  PrimaryPayerId : string;
  DisplayName : option string;
  Aliases : option string }.

(** [re.sub(r"[^\w\s]", " ", s)]. *)
Fixpoint sub_special (s : string) : string :=
  match s with
  | EmptyString => EmptyString
  | String c r =>
      String (if Py.is_word c || Py.is_space c then c else " "%char)
             (sub_special r)
  end.

(** [re.sub(r"\s+", " ", s)]; [in_run] says the previous character was
    part of the run being replaced. *)
Fixpoint sub_spaces (in_run : bool) (s : string) : string :=
  match s with
  | EmptyString => EmptyString
  | String c r =>
      if Py.is_space c then
        if in_run then sub_spaces true r
        else String " "%char (sub_spaces true r)
      else String c (sub_spaces false r)
  end.

Definition _normalize_name (name : string) : string :=
  Py.upper (Py.strip (sub_spaces false (sub_special name))).

Definition common_words : gset string :=
  list_to_set ["OF"; "THE"; "AND"; "A"; "AN"; "IN"; "FOR"; "ON"; "AT"; "TO"; "BY"].

Definition _extract_keywords (name : string) : gset string :=
  let words := Py.words (_normalize_name name) in
  list_to_set
    (List.filter
       (fun w => (2 <=? String.length w) && bool_decide (w ∉ common_words))
       words).

(** The two columns, in the order of [for col in ['DisplayName', 'Aliases']]. *)
Definition columns : list (PayerRecord → option string) :=
  [DisplayName; Aliases].

(** The lambda of strategy 1. *)
Definition exact_cell (normalized_payor : string) (x : option string) : bool :=
  match x with
  | Some v => String.eqb (_normalize_name v) normalized_payor
  | None => false
  end.

(** The lambda of strategy 2. *)
Definition partial_cell (normalized_payor : string) (x : option string) : bool :=
  match x with
  | Some v => Py.contains normalized_payor (_normalize_name v)
  | None => false
  end.

(** [m = df[df[col].apply(cell)]; if not m.empty: return m.iloc[0][id]],
    tried column by column. *)
Fixpoint first_in_columns (cell : option string → bool)
    (cols : list (PayerRecord → option string)) (df : list PayerRecord)
    : option string :=
  match cols with
  | [] => None
  | col :: rest =>
      match List.filter (fun r => cell (col r)) df with
      | r :: _ => Some (PrimaryPayerId r)
      | [] => first_in_columns cell rest df
      end
  end.

Definition exact_stage (df : list PayerRecord) (normalized_payor : string) :=
  first_in_columns (exact_cell normalized_payor) columns df.

Definition partial_stage (df : list PayerRecord) (normalized_payor : string) :=
  first_in_columns (partial_cell normalized_payor) columns df.

Definition calculate_keyword_score (value : option string)
    (keywords : gset string) : nat :=
  match value with
  | None => 0
  | Some v => size (keywords ∩ _extract_keywords v)
  end.

(** [df['match_score']] after the two [+=]. *)
Definition match_score (payor_keywords : gset string) (r : PayerRecord) : nat :=
  fold_left (fun acc col => acc + calculate_keyword_score (col r) payor_keywords)
            columns 0.

Definition keyword_stage (df : list PayerRecord)
    (payor_keywords : gset string) : option string :=
  let score := match_score payor_keywords in
  let best := max_list (score <$> df) in
  match List.filter (fun r => score r =? best) df with
  | r :: _ => if 0 <? score r then Some (PrimaryPayerId r) else None
  | [] => None
  end.

(** The body of [get_trading_partner_id] once the table [df] is read. *)
Definition resolve (df : list PayerRecord) (payor_name : string) : string :=
  match df with
  | [] => ""
  | _ =>
      let normalized_payor := _normalize_name payor_name in
      let payor_keywords := _extract_keywords payor_name in
      match exact_stage df normalized_payor with
      | Some id => id
      | None =>
          match partial_stage df normalized_payor with
          | Some id => id
          | None =>
              match keyword_stage df payor_keywords with
              | Some id => id
              | None => ""
              end
          end
      end
  end.

(** [get_trading_partner_id(payor_name, payer_id)] over an injected
    directory lookup ([get_payers_from_db] / [payer_obj.get_all_payers]). *)
Definition get_trading_partner_id {Key : Type}
    (lookup : Key → list PayerRecord)
    (payor_name : string) (payer_id : Key) : string :=
  resolve (lookup payer_id) payor_name.

(** *** Vocabulary of the statements *)

(** [s] occurs in [t] as a run of consecutive characters. *)
Definition is_substring (s t : string) : Prop :=
  ∃ pre post, t = pre +:+ s +:+ post.

(** The cell is present and the normalized input occurs in its
    normalized text. *)
Definition cell_contains (normalized_payor : string) (x : option string)
    : Prop :=
  ∃ v, x = Some v ∧ is_substring normalized_payor (_normalize_name v).

(** The cell is present and normalizes to the empty string. *)
Definition cell_is_blank (x : option string) : Prop :=
  ∃ v, x = Some v ∧ _normalize_name v = "".

(** The second record's name is all punctuation; the first record has
    no alias. *)
Definition blank_name_second_record : list PayerRecord :=
  [ mkPayer "A" (Some "X") (Some ""); mkPayer "B" (Some "--") (Some "Y") ].

(** The two records of the staging example, with any aliases. *)
Definition aetna_records (a1 a2 : option string) : list PayerRecord :=
  [ mkPayer "A" (Some "AETNA HEALTH") a1; mkPayer "B" (Some "AETNA") a2 ].

Definition one_short_record : list PayerRecord :=
  [ mkPayer "A" (Some "AB") (Some "") ].

Definition two_records_blank_alias : list PayerRecord :=
  [ mkPayer "A" (Some "AETNA") (Some "AET");
    mkPayer "B" (Some "CIGNA") (Some "") ].

End Resolver.

(** ** Tabular rows and the simulated network *)

Module Table.

(** A cell of a data frame or of a spreadsheet record: missing ([NaN])
    or a text value (numeric and date cells are outside the model). *)
Inductive Cell := NaN | Val (s : string).

(** [pd.isna]. *)
Definition isna (c : Cell) : bool :=
  match c with NaN => true | Val _ => false end.

(** [str(c)]: a missing cell prints as [nan]. *)
Definition str_cell (c : Cell) : string :=
  match c with NaN => "nan" | Val s => s end.

(** A column name written with its own double quotes, as in
    [row.get('"payer name"', "")]. *)
Definition quoted (s : string) : string :=
  String (ascii_of_nat 34) (s +:+ String (ascii_of_nat 34) EmptyString).

(** [row.get(key, "")]. *)
Definition get (row : gmap string Cell) (key : string) : Cell :=
  default (Val "") (row !! key).

(** [asyncio.gather] over the task list, with [return_exceptions=True]:
    the tasks finish in the order [completion]; each stores its value in
    the slot of its own position, and the call returns the slots, in
    task order, once every one is filled. *)
Definition gather_slots {A} (tasks : list A) (completion : list nat)
    : list (option A) :=
  fold_left (fun slots i =>
               match tasks !! i with
               | Some r => <[i := Some r]> slots
               | None => slots
               end)
            completion (replicate (length tasks) None).

Definition gather {A} (tasks : list A) (completion : list nat)
    : option (list A) :=
  mapM id (gather_slots tasks completion).

End Table.

(** ** The claims batch engine ([claim_service.py]) *)

Module ClaimService.
Import Table.

(** The request payload of [_create_claim_payload_from_csv]. *)
Record Payload := mkPayload {
  beginningDateOfService : string;
  endDateOfService : string;
  npi : string;
  organizationName : string;
  providerType : string;
  dateOfBirth : string;
  firstName : string;
  lastName : string;
  memberId : string;
  tradingPartnerServiceId : string }.

(** The JSON body of a response, as far as the engine reads it. *)
Record ClaimStatus := mkClaimStatus { statusCode : option string }.
Record ClaimEntry := mkClaimEntry { claimStatus : option ClaimStatus }.
Record Data := mkData {
  message : option string;
  x12 : option string;
  claims : option (list ClaimEntry) }.

(** The dictionary returned by [_make_claim_status_request]. *)
Record Response := mkResponse {
  status_code : option Z;
  success : bool;
  data : option Data;
  error : option string }.

(** What the network does with one request. *)
Inductive Outcome :=
| Http (status : Z) (body : Data)
| ClientError (msg : string)
| OtherError (msg : string).

(** An element of [completed_results]. *)
Inductive TaskResult :=
| Raised (msg : string)
| Returned (index : nat) (payload : Payload) (response : Response).

Record ResultEntry := mkResult {
  r_request_payload : Payload;
  r_claim_status : string }.

Record Failure := mkFailure {
  f_request_payload : option Payload;
  f_error : string;
  f_status_code : option Z }.

(** A row of [Code_Mapping.csv]. *)
Record DenialRow := mkDenial {
  DenialCode : string;
  DenialCategory : string;
  DenialReason : string;
  FinalSteps : string }.

(** The dictionary [_make_claim_status_request] builds on each of its
    three exits. *)
Definition to_response (o : Outcome) : Response :=
  match o with
  | Http status body =>
      {| status_code := Some status; success := (status =? 200)%Z;
         data := Some body; error := None |}
  | ClientError e =>
      {| status_code := None; success := false; data := None;
         error := Some e |}
  | OtherError e =>
      {| status_code := None; success := false; data := None;
         error := Some ("Unexpected error: " +:+ e) |}
  end.

Definition _make_claim_status_request (payload : Payload) (index : nat)
    (o : Outcome) : TaskResult :=
  Returned index payload (to_response o).

(** [df.iloc[index, df.columns.get_loc(col)] = v], for a column the
    table has ([generate_payloads_from_csv] adds the five the loop
    writes); [None] is the [IndexError] of a position past the last
    row. *)
Definition iloc_set (index : nat) (col : string) (v : Cell)
    (df : list (gmap string Cell)) : option (list (gmap string Cell)) :=
  if decide (index < length df) then Some (alter (insert col v) index df)
  else None.

Section Engine.
(** [X12Labels], pandas' date parsing, [str(int(_))] and the payer
    directory are external to the sources: parameters. *)
Variable get_status_code : string → string.
Variable get_reason_code : string → string.
Variable _parse_date : Cell → string.
Variable int_str : string → string.
Variable get_all_payers : string → list Resolver.PayerRecord.

(** *** Payload construction (lines 173-294) *)

(** [str(row.get(k1, "")).strip()], falling back to [k2] when empty. *)
Definition text_of (row : gmap string Cell) (k1 k2 : string) : string :=
  let v := Py.strip (str_cell (get row k1)) in
  if Py.truthy v then v else Py.strip (str_cell (get row k2)).

Definition _create_claim_payload_from_csv (row : gmap string Cell)
    (trading_partner_service_id : string) : Payload :=
  let npi_value := get row "NPI" in
  {| beginningDateOfService := _parse_date (get row "From DOS");
     endDateOfService := _parse_date (get row "To DOS");
     npi := match npi_value with
            | Val s => if Py.truthy s then Py.strip (int_str s) else ""
            | NaN => ""
            end;
     organizationName := text_of row (quoted "Payor Name") "Payor Name";
     providerType := "BillingProvider";
     dateOfBirth := _parse_date (get row "DOB");
     firstName := Py.strip (str_cell (get row "First Name"));
     lastName := Py.strip (str_cell (get row "Last Name"));
     memberId := text_of row (quoted "Insured ID") "Insured ID";
     tradingPartnerServiceId := trading_partner_service_id |}.

(** The five columns added before the loop. *)
Definition add_columns (row : gmap string Cell) : gmap string Cell :=
  <["final_steps" := Val ""]>
    (<["denial_reason" := Val ""]>
       (<["denial_code" := Val ""]>
          (<["denial_category" := Val ""]>
             (<["claim_status" := Val ""]> row)))).

(** The candidate id read from the row (lines 276-281). *)
Definition candidate_id (row : gmap string Cell) : string :=
  let ecs_id := get row "ECS PAYOR ID" in
  if isna ecs_id then "" else Py.strip (str_cell ecs_id).

(** One iteration of [for _, row in df.iterrows()]; the label [_] of
    a freshly read table is the row's position. *)
Definition payload_step
    (acc : list Payload * list (gmap string Cell))
    (labelled : nat * gmap string Cell)
    : list Payload * list (gmap string Cell) :=
  let '(payloads, df) := acc in
  let '(label, row) := labelled in
  let payor_name := text_of row (quoted "payer name") "payer name" in
  let trading_partner_service_id := candidate_id row in
  if String.length trading_partner_service_id <? 5 then
    let resolved :=
      Resolver.get_trading_partner_id get_all_payers payor_name
        trading_partner_service_id in
    (payloads ++ [_create_claim_payload_from_csv row resolved],
     alter (insert "ECS PAYOR ID" (Val resolved)) label df)
  else
    (payloads ++
       [_create_claim_payload_from_csv row trading_partner_service_id],
     df).

Definition generate_payloads_from_csv (csv : list (gmap string Cell))
    : list Payload * list (gmap string Cell) :=
  let df := add_columns <$> csv in
  fold_left payload_step (imap pair df) ([], df).

(** The trading-partner id the loop settles on for a row, and what
    the loop does to the table row of that label. *)
Definition chosen_id (row : gmap string Cell) : string :=
  if String.length (candidate_id row) <? 5 then
    Resolver.get_trading_partner_id get_all_payers
      (text_of row (quoted "payer name") "payer name") (candidate_id row)
  else candidate_id row.

Definition mark_row (row : gmap string Cell)
    (target : gmap string Cell) : gmap string Cell :=
  if String.length (candidate_id row) <? 5
  then <["ECS PAYOR ID" := Val (chosen_id row)]> target
  else target.

(** *** The result loop (lines 384-449) *)

Record LoopState := mkLoop {
  results : list ResultEntry;
  failed_requests : list Failure;
  df : list (gmap string Cell);
  denial_data : option DenialRow }.

(** [response.get('data', {}).get("message", response.get("error",
    "Unknown error"))]. *)
Definition error_text (response : Response) : string :=
  match data response ≫= message with
  | Some m => m
  | None => default "Unknown error" (error response)
  end.

(** [claims_data[0].get("claimStatus", {}).get('statusCode', '')]. *)
Definition first_status_code (e : ClaimEntry) : string :=
  default "" (claimStatus e ≫= statusCode).

Definition process_result (denial_info : list DenialRow)
    (st : LoopState) (result : TaskResult) : option LoopState :=
  match result with
  | Raised msg =>
      Some {| results := results st;
              failed_requests :=
                failed_requests st ++
                [ {| f_request_payload := None; f_error := msg;
                     f_status_code := None |} ];
              df := df st; denial_data := denial_data st |}
  | Returned index payload response =>
      if negb (bool_decide (status_code response = Some 200%Z)) then
        let failed :=
          failed_requests st ++
          [ {| f_request_payload := Some payload;
               f_error := error_text response;
               f_status_code := status_code response |} ] in
        df' ← iloc_set index "claim_status" (Val "Payer not supported") (df st);
        Some {| results := results st; failed_requests := failed;
                df := df'; denial_data := denial_data st |}
      else
        match data response ≫= x12 with
        | Some (String a x) =>
            let x12_data := String a x in
            let claim_status_value :=
              Converter.render_x12 get_status_code get_reason_code x12_data in
            '(df1, dd) ←
              match default [] (data response ≫= claims) with
              | entry :: _ =>
                  let denial_code := first_status_code entry in
                  let denial_code_str := Py.strip denial_code in
                  let matching_row :=
                    List.filter
                      (fun r => String.eqb (Py.strip (DenialCode r))
                                           denial_code_str)
                      denial_info in
                  let dd := match matching_row with
                            | r :: _ => Some r
                            | [] => denial_data st
                            end in
                  d1 ← iloc_set index "denial_code" (Val denial_code) (df st);
                  d2 ← iloc_set index "denial_category"
                         (Val (default "" (DenialCategory <$> dd))) d1;
                  d3 ← iloc_set index "denial_reason"
                         (Val (default "" (DenialReason <$> dd))) d2;
                  d4 ← iloc_set index "final_steps"
                         (Val (default "" (FinalSteps <$> dd))) d3;
                  Some (d4, dd)
              | [] => Some (df st, denial_data st)
              end;
            df2 ← iloc_set index "claim_status" (Val claim_status_value) df1;
            Some {| results :=
                      results st ++
                      [ {| r_request_payload := payload;
                           r_claim_status := claim_status_value |} ];
                    failed_requests := failed_requests st;
                    df := df2; denial_data := dd |}
        | _ =>
            Some {| results := results st;
                    failed_requests :=
                      failed_requests st ++
                      [ {| f_request_payload := Some payload;
                           f_error := "No x12 data in response";
                           f_status_code := status_code response |} ];
                    df := df st; denial_data := denial_data st |}
        end
  end.

(** The locals before the loop: two empty lists and
    [denial_data = {}]. *)
Definition initial_state (df0 : list (gmap string Cell)) : LoopState :=
  {| results := []; failed_requests := []; df := df0;
     denial_data := None |}.

(** [for result in completed_results]. *)
Fixpoint process_results (denial_info : list DenialRow)
    (completed : list TaskResult) (st : LoopState) : option LoopState :=
  match completed with
  | [] => Some st
  | result :: rest =>
      st' ← process_result denial_info st result;
      process_results denial_info rest st'
  end.

(** *** Vocabulary of the statements *)

(** The transaction text of a response that reaches the decoder:
    status 200 and a non-empty [x12]. *)
Definition decodable (response : Response) : option string :=
  if bool_decide (status_code response = Some 200%Z) then
    match data response ≫= x12 with
    | Some (String a x) => Some (String a x)
    | _ => None
    end
  else None.

Definition index_of (t : TaskResult) : option nat :=
  match t with
  | Raised _ => None
  | Returned index _ _ => Some index
  end.

(** The entry a task result adds to [results], if any. *)
Definition result_entry_of (t : TaskResult) : option ResultEntry :=
  match t with
  | Raised _ => None
  | Returned _ payload response =>
      (fun x12_data =>
         {| r_request_payload := payload;
            r_claim_status :=
              Converter.render_x12 get_status_code get_reason_code x12_data |})
      <$> decodable response
  end.

(** The entry a task result adds to [failed_requests], if any. *)
Definition failure_of (t : TaskResult) : option Failure :=
  match t with
  | Raised msg =>
      Some {| f_request_payload := None; f_error := msg;
              f_status_code := None |}
  | Returned _ payload response =>
      if bool_decide (status_code response = Some 200%Z) then
        match decodable response with
        | Some _ => None
        | None =>
            Some {| f_request_payload := Some payload;
                    f_error := "No x12 data in response";
                    f_status_code := status_code response |}
        end
      else
        Some {| f_request_payload := Some payload;
                f_error := error_text response;
                f_status_code := status_code response |}
  end.

(** [denial_data] once a response is processed: replaced when the
    response is decoded, names a claim and its code has a row in the
    table; kept otherwise. *)
Definition denial_after (denial_info : list DenialRow)
    (dd : option DenialRow) (response : Response) : option DenialRow :=
  match decodable response, default [] (data response ≫= claims) with
  | Some _, entry :: _ =>
      match List.filter
              (fun r => String.eqb (Py.strip (DenialCode r))
                                   (Py.strip (first_status_code entry)))
              denial_info with
      | r :: _ => Some r
      | [] => dd
      end
  | _, _ => dd
  end.

(** What processing a response does to the row of its index. *)
Definition row_after (denial_info : list DenialRow)
    (dd : option DenialRow) (response : Response)
    (row : gmap string Cell) : gmap string Cell :=
  if bool_decide (status_code response = Some 200%Z) then
    match decodable response with
    | None => row
    | Some x12_data =>
        let status :=
          Val (Converter.render_x12 get_status_code get_reason_code x12_data) in
        match default [] (data response ≫= claims) with
        | entry :: _ =>
            let dd' := denial_after denial_info dd response in
            <["claim_status" := status]>
              (<["final_steps" := Val (default "" (FinalSteps <$> dd'))]>
                 (<["denial_reason" := Val (default "" (DenialReason <$> dd'))]>
                    (<["denial_category" :=
                         Val (default "" (DenialCategory <$> dd'))]>
                       (<["denial_code" := Val (first_status_code entry)]> row))))
        | [] => <["claim_status" := status]> row
        end
    end
  else <["claim_status" := Val "Payer not supported"]> row.

(** The loop state after one task result whose index is a row of the
    table. *)
Definition state_after (denial_info : list DenialRow) (st : LoopState)
    (t : TaskResult) : LoopState :=
  {| results := results st ++ option_list (result_entry_of t);
     failed_requests := failed_requests st ++ option_list (failure_of t);
     df := match t with
           | Raised _ => df st
           | Returned index _ response =>
               alter (row_after denial_info (denial_data st) response)
                     index (df st)
           end;
     denial_data := match t with
                    | Raised _ => denial_data st
                    | Returned _ _ response =>
                        denial_after denial_info (denial_data st) response
                    end |}.

(** The tasks of a batch, in submission order. *)
Definition tasks_of (net : nat → Payload → Outcome)
    (payloads : list Payload) : list TaskResult :=
  imap (fun i payload => _make_claim_status_request payload i (net i payload))
       payloads.

(** The failing record's effect on the state: its row is marked and
    one failure entry is appended. *)
Definition mark_failed (k : nat) (e : Failure) (st : LoopState) : LoopState :=
  {| results := results st;
     failed_requests := failed_requests st ++ [e];
     df := alter (insert "claim_status" (Val "Payer not supported")) k (df st);
     denial_data := denial_data st |}.

(** [submit_claim_status_requests]: [net i p] is the network's answer
    to the request of record [i]; [completion] is the order in which
    the tasks finish. *)
Definition submit_claim_status_requests
    (denial_info : list DenialRow) (net : nat → Payload → Outcome)
    (completion : list nat)
    (payloads : list Payload) (df0 : list (gmap string Cell))
    : option (list ResultEntry * list Failure * list (gmap string Cell)) :=
  let tasks :=
    imap (fun i payload => _make_claim_status_request payload i (net i payload))
         payloads in
  completed_results ← gather tasks completion;
  st ← process_results denial_info completed_results (initial_state df0);
  Some (results st, failed_requests st, df st).

End Engine.
End ClaimService.

(** ** The spreadsheet processor ([processor.py]) *)

Module Processor.
Import Table.

(** The eligibility payload of [create_payload]. *)
Record Payload := mkPayload {
  tradingPartnerServiceId : string;
  externalPatientId : option string;
  memberId : option string;
  firstName : option string;
  lastName : option string;
  dateOfBirth : option string;
  organizationName : option string;
  npi : option string;
  serviceTypeCodes : option (list string) }.

(** [safe_value] on a cell: [None] for a missing value, else the
    stripped text. *)
Definition safe_value (value : Cell) : option string :=
  match value with
  | NaN => None
  | Val s => Some (Py.strip s)
  end.

(** Truthiness of what [record.get(k)] returns: an absent key gives
    [None] and an empty text is falsy; a NaN is truthy. *)
Definition cell_truthy (c : Cell) : bool :=
  match c with NaN => true | Val s => Py.truthy s end.

(** [record.get(k1) or record.get(k2, '')]. *)
Definition get_or (record : gmap string Cell) (k1 k2 : string) : Cell :=
  match record !! k1 with
  | Some c => if cell_truthy c then c else get record k2
  | None => get record k2
  end.

(** [str(x)] where the resolver receives an optional text. *)
Definition str_opt (x : option string) : string := default "None" x.

(** The dictionary returned by [_make_request]; [Json] is the decoded
    body. *)
Record Response (Json : Type) := mkResponse {
  status_code : Z;
  success : bool;
  response : option Json;
  error : option string }.
Arguments mkResponse {Json}.
Arguments status_code {Json}.
Arguments success {Json}.
Arguments response {Json}.
Arguments error {Json}.

Inductive Outcome (Json : Type) :=
| Http (status : Z) (body : Json)
| ClientError (msg : string)
| OtherError (msg : string).
Arguments Http {Json}.
Arguments ClientError {Json}.
Arguments OtherError {Json}.

Inductive TaskResult (Json : Type) :=
| Raised (msg : string)
| Returned (index : nat) (r : Response Json).
Arguments Raised {Json}.
Arguments Returned {Json}.

Section Processor.
(** The directory lookup behind [payer_lookup.get_trading_partner_id]. *)
Variable get_payers_from_db : option string → list Resolver.PayerRecord.
Context {Json : Type}.

(** [create_payload] (lines 46-96).  The record dictionary is only
    read; it is returned next to the payload to make its state after
    the call explicit. *)
Definition create_payload (record : gmap string Cell)
    : Payload * gmap string Cell :=
  let payor_name := safe_value (get_or record "Payor Name" "payer name") in
  let ecs_id := safe_value (get_or record "ECS ID" "payer id") in
  let trading_partner_id :=
    match ecs_id with
    | Some s =>
        if Py.truthy s && (5 <=? String.length s) then s
        else Resolver.get_trading_partner_id get_payers_from_db
               (str_opt payor_name) ecs_id
    | None =>
        Resolver.get_trading_partner_id get_payers_from_db
          (str_opt payor_name) ecs_id
    end in
  let service_types := safe_value (get record "Service Type codes") in
  ({| tradingPartnerServiceId := trading_partner_id;
      externalPatientId := safe_value (get record "externalPatientId");
      memberId := safe_value (get record "Member ID");
      firstName := safe_value (get_or record "First Name" "Sub First Name");
      lastName := safe_value (get_or record "Last Name" "Sub Last Name");
      dateOfBirth := safe_value (get record "Sub DOB");
      organizationName := safe_value (get record "organizationName");
      npi := safe_value (get record "Org npi");
      serviceTypeCodes :=
        match service_types with
        | Some s => if Py.truthy s then Some [s] else None
        | None => None
        end |},
   record).

(** [build_payloads]. *)
Definition build_payloads (records : list (gmap string Cell))
    : list Payload :=
  (fun record => fst (create_payload record)) <$> records.

(** The dictionary [_make_request] builds on each of its three exits. *)
Definition to_response (o : Outcome Json) : Response Json :=
  match o with
  | Http status body =>
      {| status_code := status; success := (status =? 200)%Z;
         response := Some body; error := None |}
  | ClientError e =>
      {| status_code := 0; success := false; response := None;
         error := Some e |}
  | OtherError e =>
      {| status_code := 0; success := false; response := None;
         error := Some ("Unexpected error: " +:+ e) |}
  end.

Definition _make_request (payload : Payload) (index : nat)
    (o : Outcome Json) : TaskResult Json :=
  Returned index (to_response o).

(** [responses[index] = response]; [None] is the [IndexError]. *)
Definition store (responses : list (option (Response Json)))
    (result : TaskResult Json) : option (list (option (Response Json))) :=
  match result with
  | Raised _ => Some responses
  | Returned index r =>
      if decide (index < length responses)
      then Some (<[index := Some r]> responses)
      else None
  end.

Fixpoint store_all (completed : list (TaskResult Json))
    (responses : list (option (Response Json)))
    : option (list (option (Response Json))) :=
  match completed with
  | [] => Some responses
  | result :: rest => responses' ← store responses result; store_all rest responses'
  end.

Definition request_failed : Response Json :=
  {| status_code := 0; success := false; response := None;
     error := Some "Request failed" |}.

(** [send_requests_concurrent] (lines 123-168). *)
Definition send_requests_concurrent
    (net : nat → Payload → Outcome Json) (completion : list nat)
    (payloads : list Payload) : option (list (Response Json)) :=
  let tasks :=
    imap (fun i payload => _make_request payload i (net i payload)) payloads in
  match gather tasks completion with
  | Some completed_results =>
      match store_all completed_results (replicate (length payloads) None) with
      | Some responses => Some (default request_failed <$> responses)
      | None => None
      end
  | None => None
  end.

End Processor.
End Processor.

(** ** Sample batches *)

Module Demo.
Import Table.

(** A batch of five eligibility payloads whose network answers carry the
    record number. *)
Definition elig_payload (member : string) : Processor.Payload :=
  {| Processor.tradingPartnerServiceId := "60054";
     Processor.externalPatientId := None;
     Processor.memberId := Some member;
     Processor.firstName := None; Processor.lastName := None;
     Processor.dateOfBirth := None; Processor.organizationName := None;
     Processor.npi := None; Processor.serviceTypeCodes := None |}.

Definition five_payloads : list Processor.Payload :=
  elig_payload <$> ["M0"; "M1"; "M2"; "M3"; "M4"].

Definition echo_net (i : nat) (p : Processor.Payload) : Processor.Outcome nat :=
  Processor.Http 200 i.

Definition scrambled : list nat := [3; 1; 4; 0; 2].

(** A batch of three claim-status payloads; the second is rejected. *)
Definition claim_payload (member : string) : ClaimService.Payload :=
  {| ClaimService.beginningDateOfService := "20250725";
     ClaimService.endDateOfService := "20250725";
     ClaimService.npi := "1578592309";
     ClaimService.organizationName := "AETNA";
     ClaimService.providerType := "BillingProvider";
     ClaimService.dateOfBirth := "19800101";
     ClaimService.firstName := "HECTOR";
     ClaimService.lastName := "HECTOR";
     ClaimService.memberId := member;
     ClaimService.tradingPartnerServiceId := "60054" |}.

Definition three_payloads : list ClaimService.Payload :=
  claim_payload <$> ["M0"; "M1"; "M2"].

Definition three_rows : list (gmap string Cell) :=
  (fun m => ClaimService.add_columns {[ "Insured ID" := Val m ]})
    <$> ["M0"; "M1"; "M2"].

Definition ok_body : ClaimService.Data :=
  {| ClaimService.message := None;
     ClaimService.x12 := Some Converter.sample_277;
     ClaimService.claims := None |}.

Definition rejected_body : ClaimService.Data :=
  {| ClaimService.message := Some "Payer not found";
     ClaimService.x12 := None; ClaimService.claims := None |}.

Definition second_rejected (i : nat) (p : ClaimService.Payload)
    : ClaimService.Outcome :=
  if decide (i = 1) then ClaimService.Http 404 rejected_body
  else ClaimService.Http 200 ok_body.

Definition label (s : string) : string := "<" +:+ s +:+ ">".

(** A directory whose one enabled payer has an id ending in the hint
    054. *)
Definition aetna_directory {Key} (_ : Key) : list Resolver.PayerRecord :=
  [ Resolver.mkPayer "60054" (Some "AETNA") (Some "") ].

Definition short_id_record : gmap string Cell :=
  {[ "payer name" := Val "Aetna"; "payer id" := Val "054" ]}.

Definition short_id_row : gmap string Cell :=
  {[ "payer name" := Val "Aetna"; "ECS PAYOR ID" := Val "054" ]}.

Definition long_id_row : gmap string Cell :=
  {[ "payer name" := Val "Aetna"; "ECS PAYOR ID" := Val " 87726 " ]}.

Definition no_date (c : Cell) : string := "".
Definition same_text (s : string) : string := s.
End Demo.

(** * Properties *)

(** ** The decoder *)

Section ConverterProofs.
Import Converter.

Lemma stc_position_shape segments keys svc pos :
  stc_position segments (keys, svc) pos = (keys, svc) ∨
  ∃ sc rc ec,
    (status_info_of (field segments pos "") = (sc, rc, ec)) ∧
    (adj_key_of (sc, rc, ec) ∉ keys) ∧
    stc_position segments (keys, svc) pos =
      ({[adj_key_of (sc, rc, ec)]} ∪ keys, append_adjustment svc sc rc ec).
Proof.
  unfold stc_position.
  destruct (Py.truthy (field segments pos "")); [|by left].
  destruct (status_info_of (field segments pos "")) as [[sc rc] ec].
  destruct (Py.truthy sc || Py.truthy rc); [|by left].
  case_decide; [by left|]. right. by exists sc, rc, ec.
Qed.

Lemma truthy_ne s : s ≠ "" → Py.truthy s = true.
Proof. by destruct s. Qed.

Lemma stc_position_dedup segments base acc pos :
  (status_info_of (field segments pos "")).2 ≠ "" →
  (∃ added, s_adjustments acc.2 = base ++ added ∧
            NoDup (adj_triple <$> added) ∧
            ∀ a, a ∈ added → adj_key_of (adj_triple a) ∈ acc.1) →
  ∃ added, s_adjustments (stc_position segments acc pos).2 = base ++ added ∧
           NoDup (adj_triple <$> added) ∧
           ∀ a, a ∈ added →
                adj_key_of (adj_triple a) ∈ (stc_position segments acc pos).1.
Proof.
  destruct acc as [keys svc]. intros Hent (added & Hadd & Hnd & Hkeys).
  destruct (stc_position_shape segments keys svc pos)
    as [-> | (sc & rc & ec & Hinfo & Hfresh & ->)]; [by exists added|].
  rewrite Hinfo in Hent. cbn [fst snd] in *.
  unfold append_adjustment; cbn [s_adjustments].
  rewrite (truthy_ne _ Hent).
  exists (added ++ [mkAdjustment sc rc (s_charge svc) ec]). split_and!.
  - by rewrite Hadd, (assoc_L (++)).
  - rewrite fmap_app. apply NoDup_app. split_and!; [done| |apply NoDup_singleton].
    intros t Ht Ht'. apply list_elem_of_singleton in Ht'. subst t.
    apply list_elem_of_fmap in Ht as (a & Ha & Hin).
    apply Hfresh. change (sc, rc, ec) with (adj_triple (mkAdjustment sc rc (s_charge svc) ec)).
    rewrite Ha. by apply Hkeys.
  - intros a [Ha| ->%list_elem_of_singleton]%elem_of_app.
    + apply elem_of_union_r. by apply Hkeys.
    + apply elem_of_union_l, elem_of_singleton. done.
Qed.

(** C1 (amended).  Within one service-level [STC] segment the loop over
    the candidate positions 1, 10 and 11 appends its adjustments after
    those the service line already has, and no two of the appended ones
    share a (status_code, reason_code, entity_code) triple, provided no
    candidate writes an empty entity sub-field.  The set of seen keys is
    local to the segment: nothing is compared with the adjustments of
    earlier segments. *)
Theorem stc_service_dedup segments svc :
  (∀ pos, pos ∈ status_positions →
          (status_info_of (field segments pos "")).2 ≠ "") →
  s_adjustments (stc_service segments svc) =
    s_adjustments svc ++ added_adjustments segments svc ∧
  NoDup (adj_triple <$> added_adjustments segments svc).
Proof.
  intros Hent.
  assert (∃ added,
    s_adjustments (stc_service segments svc) = s_adjustments svc ++ added ∧
    NoDup (adj_triple <$> added) ∧
    ∀ a, a ∈ added →
      adj_key_of (adj_triple a) ∈
        (fold_left (stc_position segments) status_positions (∅, svc)).1)
    as (added & Hadd & Hnd & _).
  { unfold stc_service, status_positions. cbn [fold_left].
    do 3 (apply stc_position_dedup;
          [apply Hent; unfold status_positions; set_solver|]).
    exists []. rewrite (right_id_L [] (++)). split_and!; [done|constructor|].
    intros a Ha. by apply elem_of_nil in Ha. }
  unfold added_adjustments. rewrite Hadd, drop_app_length. done.
Qed.

Lemma stc_service_dedup_witness :
  s_adjustments (stc_service triple_stc_segments sample_service) =
    s_adjustments sample_service ++
    added_adjustments triple_stc_segments sample_service ∧
  NoDup (adj_triple <$> added_adjustments triple_stc_segments sample_service).
Proof.
  apply (stc_service_dedup triple_stc_segments sample_service).
  intros pos Hpos. unfold status_positions in Hpos.
  repeat (apply elem_of_cons in Hpos as [-> | Hpos]; [vm_compute; discriminate|]).
  by apply elem_of_nil in Hpos.
Defined.

(** The same status at positions 1, 10 and 11 of one segment is recorded
    once. *)
Lemma triple_stc_one_adjustment :
  added_adjustments triple_stc_segments sample_service =
  [ {| a_status_code := "F2"; a_reason_code := "171";
       a_amount := "181.38"; a_entity_code := "1P" |} ].
Proof. vm_compute. reflexivity. Qed.

(** Entity codes through the service-level branch *)

Lemma stc_position_entity segments acc pos :
  Forall (fun a => a_entity_code a ≠ "") (s_adjustments acc.2) →
  Forall (fun a => a_entity_code a ≠ "")
         (s_adjustments (stc_position segments acc pos).2).
Proof.
  destruct acc as [keys svc]. intros Hok.
  destruct (stc_position_shape segments keys svc pos)
    as [-> | (sc & rc & ec & _ & _ & ->)]; [done|].
  cbn [snd append_adjustment s_adjustments] in *.
  apply Forall_app. split; [done|]. apply Forall_singleton.
  cbn. destruct ec; [discriminate|]. cbn. discriminate.
Qed.

Lemma stc_service_entity segments svc :
  Forall (fun a => a_entity_code a ≠ "") (s_adjustments svc) →
  Forall (fun a => a_entity_code a ≠ "") (s_adjustments (stc_service segments svc)).
Proof.
  intros Hok. unfold stc_service, status_positions. cbn [fold_left].
  by do 3 apply stc_position_entity.
Qed.

Lemma status_info_of_candidate svc fld sc rc ec :
  status_info_of fld = (sc, rc, ec) →
  {| a_status_code := sc; a_reason_code := rc; a_amount := s_charge svc;
     a_entity_code := if Py.truthy ec then ec else "1P" |}
  = adjustment_of_candidate svc fld.
Proof.
  unfold status_info_of, adjustment_of_candidate, entity_default.
  intros [= <- <- <-].
  destruct (2 <? length (Py.split ":" fld)); cbn; [|done].
  by destruct (Py.truthy (nth 2 (Py.split ":" fld) "")).
Qed.

Lemma stc_position_candidates segments svc0 base acc pos :
  pos ∈ status_positions →
  (s_charge acc.2 = s_charge svc0 ∧
   ∃ added, s_adjustments acc.2 = base ++ added ∧
     Forall (fun a => ∃ p, p ∈ status_positions ∧
               a = adjustment_of_candidate svc0 (field segments p "")) added) →
  s_charge (stc_position segments acc pos).2 = s_charge svc0 ∧
  ∃ added, s_adjustments (stc_position segments acc pos).2 = base ++ added ∧
    Forall (fun a => ∃ p, p ∈ status_positions ∧
              a = adjustment_of_candidate svc0 (field segments p "")) added.
Proof.
  destruct acc as [keys svc]. intros Hpos (Hch & added & Hadd & Hall).
  destruct (stc_position_shape segments keys svc pos)
    as [-> | (sc & rc & ec & Hinfo & _ & ->)]; [eauto|].
  cbn [snd append_adjustment s_adjustments s_charge] in *.
  split; [done|].
  exists (added ++ [adjustment_of_candidate svc0 (field segments pos "")]).
  split.
  - rewrite Hadd, <- (assoc_L (++)). do 3 f_equal.
    rewrite <- (status_info_of_candidate svc0 _ _ _ _ Hinfo). by rewrite Hch.
  - apply Forall_app. split; [done|]. apply Forall_singleton. eauto.
Qed.

Lemma added_adjustments_candidates segments svc :
  Forall (fun a => ∃ p, p ∈ status_positions ∧
            a = adjustment_of_candidate svc (field segments p ""))
         (added_adjustments segments svc).
Proof.
  assert (s_charge (stc_service segments svc) = s_charge svc ∧
    ∃ added,
      s_adjustments (stc_service segments svc) = s_adjustments svc ++ added ∧
      Forall (fun a => ∃ p, p ∈ status_positions ∧
              a = adjustment_of_candidate svc (field segments p "")) added)
    as (_ & added & Hadd & Hall).
  { unfold stc_service. unfold status_positions at 1 3. cbn [fold_left].
    do 3 (apply stc_position_candidates; [unfold status_positions; set_solver|]).
    split; [done|]. exists []. by rewrite (right_id_L [] (++)). }
  unfold added_adjustments. by rewrite Hadd, drop_app_length.
Qed.

(** The open service line is the last one of the open claim *)

Lemma dtp_services_length segments c cs :
  length (c_services (dtp segments c cs)) = length (c_services c).
Proof.
  unfold dtp. repeat case_match; try done. cbn. apply length_alter.
Qed.

Lemma process_segments_open_service segments st :
  (∀ i, current_service st = Some i →
        ∃ c, current_claim st = Some c ∧ S i = length (c_services c)) →
  ∀ i, current_service (process_segments segments st) = Some i →
       ∃ c, current_claim (process_segments segments st) = Some c ∧
            S i = length (c_services c).
Proof.
  intros Hinv. unfold process_segments, with_claim.
  repeat case_match; cbn; try done; intros i Hi;
    try (destruct (Hinv i Hi) as (c0 & Hc0 & Hlen); rewrite ?Hc0; cbn;
         eexists; split; [reflexivity|]; cbn;
         rewrite ?length_alter, ?dtp_services_length; done).
  - congruence.
  - injection Hi as <-. eexists. split; [done|]. cbn.
    rewrite length_app. cbn. lia.
  - destruct (Hinv i Hi) as (c0 & Hc0 & _). congruence.
Qed.

Lemma open_service_is_last lines claims0 i :
  current_service
    (fold_left process_line lines (mkPState claims0 None None ∅)) = Some i →
  ∃ c, current_claim
         (fold_left process_line lines (mkPState claims0 None None ∅)) = Some c ∧
       S i = length (c_services c).
Proof.
  revert i.
  assert (∀ st,
    (∀ i, current_service st = Some i →
          ∃ c, current_claim st = Some c ∧ S i = length (c_services c)) →
    ∀ i, current_service (fold_left process_line lines st) = Some i →
         ∃ c, current_claim (fold_left process_line lines st) = Some c ∧
              S i = length (c_services c)) as H.
  { induction lines as [|line lines IH]; intros st Hst; cbn [fold_left]; [done|].
    apply IH. unfold process_line. destruct (_ || _); [done|].
    by apply process_segments_open_service. }
  apply H. cbn. discriminate.
Qed.

(** A service-level [STC] segment rewrites the open service line, and
    nothing else of the open claim. *)
Lemma process_segments_stc_service segments st c i :
  nth 0 segments "" = "STC" →
  current_claim st = Some c → current_service st = Some i →
  current_claim (process_segments segments st) =
    Some (set_services c (alter (stc_service segments) i (c_services c))).
Proof.
  intros Htag Hc Hi. unfold process_segments, with_claim.
  rewrite Htag, Hc, Hi. done.
Qed.

(** Entity codes through the whole decoder *)

Lemma entity_codes_ok_new : entity_codes_ok new_claim.
Proof. split; constructor. Qed.

Lemma entity_codes_ok_stc_claim segments c :
  entity_codes_ok c → entity_codes_ok (stc_claim segments c).
Proof.
  intros [Hc Hs]. split; cbn; [|done].
  apply Forall_app. split; [done|]. by apply Forall_singleton.
Qed.

Lemma entity_codes_ok_alter (f : ServiceLine → ServiceLine) i c :
  (∀ s, Forall (fun a => a_entity_code a ≠ "") (s_adjustments s) →
        Forall (fun a => a_entity_code a ≠ "") (s_adjustments (f s))) →
  entity_codes_ok c → entity_codes_ok (set_services c (alter f i (c_services c))).
Proof.
  intros Hf [Hc Hs]. split; cbn; [done|].
  apply Forall_lookup. intros j s Hj.
  destruct (decide (i = j)) as [->|Hne].
  - rewrite list_lookup_alter_eq in Hj.
    destruct (c_services c !! j) as [s0|] eqn:E; [|done].
    injection Hj as <-. apply Hf. by eapply Forall_lookup in Hs.
  - rewrite list_lookup_alter_ne in Hj by done. by eapply Forall_lookup in Hs.
Qed.

Lemma entity_codes_ok_dtp segments c cs :
  entity_codes_ok c → entity_codes_ok (dtp segments c cs).
Proof.
  intros Hok. unfold dtp.
  repeat case_match; try done.
  by apply entity_codes_ok_alter.
Qed.

Lemma entity_codes_ok_svc segments c :
  entity_codes_ok c → entity_codes_ok (svc segments c).
Proof.
  intros [Hc Hs]. split; cbn; [done|].
  apply Forall_app. split; [done|]. apply Forall_singleton. constructor.
Qed.

Lemma parser_inv_with_claim st (f : Claim → Claim) :
  (∀ c, entity_codes_ok c → entity_codes_ok (f c)) →
  Forall entity_codes_ok (claims st) ∧
    (∀ c, current_claim st = Some c → entity_codes_ok c) →
  Forall entity_codes_ok (claims (with_claim st f)) ∧
    (∀ c, current_claim (with_claim st f) = Some c → entity_codes_ok c).
Proof.
  intros Hf [Hcs Hc]. split; [done|]. cbn. intros c Hc'.
  destruct (current_claim st) as [c0|]; [|done].
  injection Hc' as <-. auto.
Qed.

Lemma process_segments_entity segments st :
  Forall entity_codes_ok (claims st) ∧
    (∀ c, current_claim st = Some c → entity_codes_ok c) →
  Forall entity_codes_ok (claims (process_segments segments st)) ∧
    (∀ c, current_claim (process_segments segments st) = Some c →
          entity_codes_ok c).
Proof.
  intros Hinv. unfold process_segments.
  destruct (String.eqb (nth 0 segments "") "HL").
  { destruct Hinv as [Hcs Hc].
    destruct (String.eqb (field segments 3 "") "22"); cbn; [|done].
    split.
    - destruct (current_claim st) as [c|]; [|done].
      apply Forall_app. split; [done|]. apply Forall_singleton. auto.
    - intros c [= <-]. apply entity_codes_ok_new. }
  repeat (case_match; try done);
    try (apply parser_inv_with_claim; [|done]; intros c0 Hc0; try done).
  - apply entity_codes_ok_alter; [intros s; apply stc_service_entity|done].
  - by apply entity_codes_ok_stc_claim.
  - by apply entity_codes_ok_dtp.
  - destruct Hinv as [Hcs Hc]. split; [done|]. cbn. intros c' [= <-].
    apply entity_codes_ok_svc. auto.
  - destruct Hinv as [Hcs _]. split; [done|]. congruence.
Qed.

Lemma parse_text_entity claims0 x12 :
  Forall entity_codes_ok claims0 →
  Forall entity_codes_ok (parse_text claims0 x12).
Proof.
  intros H0. unfold parse_text.
  set (lines := Py.split _ _). clearbody lines.
  set (st0 := mkPState claims0 None None ∅).
  assert (Forall entity_codes_ok (claims st0) ∧
          (∀ c, current_claim st0 = Some c → entity_codes_ok c)) as Hinv
    by (split; [done|discriminate]).
  clearbody st0. revert st0 Hinv.
  induction lines as [|line lines IH]; intros st0 Hinv; cbn [fold_left].
  - destruct Hinv as [Hcs Hc]. destruct (current_claim st0) as [c|]; [|done].
    apply Forall_app. split; [done|]. apply Forall_singleton. auto.
  - apply IH. unfold process_line.
    destruct (_ || _); [done|]. by apply process_segments_entity.
Qed.

Lemma process_segments_prefix acc segments st :
  process_segments segments (prefix_claims acc st) =
  prefix_claims acc (process_segments segments st).
Proof.
  unfold process_segments, with_claim, prefix_claims. cbn.
  repeat case_match; cbn; try done.
  all: try by rewrite (assoc_L (++)).
  all: congruence.
Qed.

Lemma fold_process_line_prefix acc lines st :
  fold_left process_line lines (prefix_claims acc st) =
  prefix_claims acc (fold_left process_line lines st).
Proof.
  revert st. induction lines as [|line lines IH]; intros st; cbn [fold_left]; [done|].
  rewrite <- IH. f_equal. unfold process_line.
  destruct (_ || _); [done|]. apply process_segments_prefix.
Qed.

Lemma parse_text_app acc x12 :
  parse_text acc x12 = acc ++ parse_text [] x12.
Proof.
  unfold parse_text.
  pose proof (fold_process_line_prefix acc
    (Py.split (ascii_of_nat 10) (Py.replace "~" ("~" +:+ nl) x12))
    (mkPState [] None None ∅)) as Hfold.
  unfold prefix_claims at 1 in Hfold. cbn [claims current_claim current_service hierarchical_levels] in Hfold.
  rewrite (right_id_L [] (++)) in Hfold. rewrite Hfold. cbn.
  destruct (current_claim _); [|done]. by rewrite (assoc_L (++)).
Qed.

(** Calling [parse] again on the same parser object appends a second
    copy of the text's claims to [self.claims]. *)
Lemma parse_again_accumulates p :
  (parse (parse p).2).1 = (parse p).1 ++ parse_text [] (x12_content p).
Proof. cbn. apply parse_text_app. Qed.

(** C3.  Decoding is a function of the transaction text alone: [parse]
    depends on its parser object only through [self.claims], which a
    fresh parser holds empty, so a decode returns the claims of its text
    whatever parsers exist already, and decoding the same text again
    returns the same list, of the same length. *)
Theorem decode_is_pure heap heap' x12 p :
  (parse p).1 = self_claims p ++ decode (x12_content p) ∧
  (decode_in heap x12).1 = decode x12 ∧
  (decode_in heap x12).1 = (decode_in heap' x12).1 ∧
  (decode_in (decode_in heap x12).2 x12).1 = (decode_in heap x12).1 ∧
  length (decode_in (decode_in heap x12).2 x12).1 =
    length (decode_in heap x12).1.
Proof.
  split_and!; try done. apply parse_text_app.
Qed.

(** C4.  The sample transaction decodes to exactly one claim, with claim
    number ABC123, status F2, reason 542, total charge 1293.81,
    adjudication date 10/31/2025, patient HECTOR HECTOR with id
    U5105280302, and exactly one service line, with procedure A4604,
    date of service 07/25/2025 and charge 181.38. *)
Theorem decode_sample_277 :
  decode sample_277 =
  [ {| c_claim_number := "ABC123"; c_status_code := "F2";
       c_status_code2 := "542"; c_total_charge := "1293.81";
       c_paid_amount := "0.00"; c_patient_name := "HECTOR HECTOR";
       c_patient_id := "U5105280302";
       c_services :=
         [ {| s_cpt_code := "A4604"; s_modifier := ""; s_charge := "181.38";
              s_paid := "0"; s_dos := "07/25/2025"; s_adjustments := [];
              s_status_code := ""; s_status_code2 := "" |} ];
       c_claim_adjustments :=
         [ {| a_status_code := "F2"; a_reason_code := "542";
              a_amount := "1293.81"; a_entity_code := "" |} ];
       c_check_number := ""; c_check_date := "";
       c_adjudication_date := "10/31/2025"; c_pending_dos := None |} ].
Proof. vm_compute. reflexivity. Qed.

(** C1, as stated, fails: two [STC] segments with the same status on one
    service line leave two adjustments with the same triple. *)
Lemma repeated_stc_not_dropped :
  ∃ c s, decode repeated_stc_277 = [c] ∧ c_services c = [s] ∧
         length (s_adjustments s) = 2 ∧
         ¬ NoDup (adj_triple <$> s_adjustments s).
Proof.
  eexists _, _. split; [vm_compute; reflexivity|].
  split; [reflexivity|]. split; [reflexivity|].
  cbn. intros Hnd. apply NoDup_cons in Hnd as [Hnotin _].
  apply Hnotin. apply list_elem_of_singleton. reflexivity.
Qed.

(** C5, as stated, fails: the claim-level adjustment of the sample
    transaction carries the empty entity code, not 1P. *)
Lemma claim_level_entity_is_empty :
  ∃ c a, decode sample_277 = [c] ∧ c_claim_adjustments c = [a] ∧
         a_entity_code a = "" ∧ a_entity_code a ≠ "1P".
Proof.
  eexists _, _. split; [vm_compute; reflexivity|].
  split; [reflexivity|]. split; [reflexivity|]. discriminate.
Qed.

(** C5 (amended).  In every decoded claim the claim-level adjustments
    carry the empty entity code and the service-level adjustments a
    non-empty one; each adjustment a service-level [STC] segment appends
    is the one of a candidate position, with the candidate's third
    sub-field as entity code, or 1P when that sub-field is absent or
    empty. *)
Theorem decode_entity_codes x12 :
  Forall entity_codes_ok (decode x12) ∧
  ∀ segments svc,
    Forall (fun a => ∃ p, p ∈ status_positions ∧
              a = adjustment_of_candidate svc (field segments p ""))
           (added_adjustments segments svc).
Proof.
  split.
  - apply parse_text_entity. constructor.
  - apply added_adjustments_candidates.
Qed.

End ConverterProofs.

(** ** The resolver *)

Section ResolverProofs.
Import Resolver.

Lemma prefix_spec s t : String.prefix s t = true ↔ ∃ post, t = s +:+ post.
Proof.
  revert t. induction s as [|c s IH]; intros t.
  - destruct t; cbn; (split; [by eexists|done]).
  - destruct t as [|d t]; cbn.
    + split; [done|]. by intros [post ?].
    + destruct (ascii_dec c d) as [->|Hne].
      * rewrite IH. split; intros [post Hp]; exists post.
        -- change (String d s +:+ post) with (String d (s +:+ post)). congruence.
        -- change (String d s +:+ post) with (String d (s +:+ post)) in Hp. congruence.
      * split; [done|]. intros [post Hp].
        change (String c s +:+ post) with (String c (s +:+ post)) in Hp. congruence.
Qed.

Lemma contains_spec s t : Py.contains s t = true ↔ is_substring s t.
Proof.
  unfold is_substring. induction t as [|d t IH]; cbn [Py.contains].
  - rewrite orb_false_r, prefix_spec. split.
    + intros [post ->]. by exists "", post.
    + intros ([|c pre] & post & Hp); [eauto|discriminate].
  - rewrite orb_true_iff, IH, prefix_spec. split.
    + intros [[post ->] | (pre & post & ->)].
      * by exists "", post.
      * by exists (String d pre), post.
    + intros ([|c pre] & post & Hp).
      * left. eauto.
      * right. injection Hp as -> ->. eauto.
Qed.

Lemma contains_empty t : Py.contains "" t = true.
Proof. apply contains_spec. by exists "", t. Qed.

Lemma partial_cell_spec np x : partial_cell np x = true ↔ cell_contains np x.
Proof.
  unfold partial_cell, cell_contains. destruct x as [v|].
  - rewrite contains_spec. split; [eauto|]. by intros (? & [= <-] & ?).
  - split; [done|]. by intros (? & ? & _).
Qed.

(** [df[mask].iloc[0]] is the first row that satisfies the mask. *)
Lemma filter_head_spec {A} (f : A → bool) (l : list A) r :
  head (List.filter f l) = Some r ↔
  ∃ i, l !! i = Some r ∧ f r = true ∧
       ∀ j r', j < i → l !! j = Some r' → f r' = false.
Proof.
  induction l as [|x l IH]; cbn.
  - split; [done|]. by intros (i & Hi & _).
  - destruct (f x) eqn:Hx; cbn.
    + split.
      * intros [= <-]. exists 0. split_and!; [done..|]. intros; lia.
      * intros ([|i] & Hi & Hr & Hfirst).
        -- by injection Hi as <-.
        -- specialize (Hfirst 0 x). rewrite Hfirst in Hx by (done || lia). done.
    + rewrite IH. split.
      * intros (i & Hi & Hr & Hfirst). exists (S i). split_and!; [done..|].
        intros [|j] r' Hj Hr'; [by injection Hr' as <-|].
        apply (Hfirst j); [lia|done].
      * intros ([|i] & Hi & Hr & Hfirst).
        -- injection Hi as <-. congruence.
        -- exists i. split_and!; [done..|]. intros j r' Hj Hr'.
           apply (Hfirst (S j)); [lia|done].
Qed.

Lemma filter_nil_spec {A} (f : A → bool) (l : list A) :
  List.filter f l = [] ↔ ∀ r, r ∈ l → f r = false.
Proof.
  induction l as [|x l IH]; cbn.
  - split; [|done]. intros _ r Hr. by apply elem_of_nil in Hr.
  - destruct (f x) eqn:Hx.
    + split; [done|]. intros H. rewrite H in Hx; [done|]. apply list_elem_of_here.
    + rewrite IH. split.
      * intros H r [->|Hr]%elem_of_cons; auto.
      * intros H r Hr. apply H. by apply list_elem_of_further.
Qed.

Lemma columns_spec cell df id :
  first_in_columns cell columns df = Some id ↔
  ∃ i r, df !! i = Some r ∧ PrimaryPayerId r = id ∧
    ((cell (DisplayName r) = true ∧
      ∀ j r', j < i → df !! j = Some r' → cell (DisplayName r') = false) ∨
     (cell (Aliases r) = true ∧
      (∀ j r', j < i → df !! j = Some r' → cell (Aliases r') = false) ∧
      ∀ r', r' ∈ df → cell (DisplayName r') = false)).
Proof.
  unfold columns. cbn [first_in_columns].
  destruct (List.filter (fun r => cell (DisplayName r)) df) as [|r1 l1] eqn:E1.
  - pose proof (proj1 (filter_nil_spec _ _) E1) as Hnone.
    destruct (List.filter (fun r => cell (Aliases r)) df) as [|r2 l2] eqn:E2.
    + pose proof (proj1 (filter_nil_spec _ _) E2) as Hnone2.
      split; [done|]. intros (i & r & Hi & _ & [[Hc _] | [Hc _]]).
      * rewrite Hnone in Hc; [done|]. by eapply list_elem_of_lookup_2.
      * rewrite Hnone2 in Hc; [done|]. by eapply list_elem_of_lookup_2.
    + assert (head (List.filter (fun r => cell (Aliases r)) df) = Some r2) as Hh
        by (by rewrite E2).
      apply filter_head_spec in Hh as (i & Hi & Hr & Hfirst).
      split.
      * intros [= <-]. exists i, r2. split_and!; [done..|]. right. done.
      * intros (i' & r & Hi' & <- & [[Hc _] | (Hc & Hfirst' & _)]).
        { rewrite Hnone in Hc; [done|]. by eapply list_elem_of_lookup_2. }
        destruct (lt_eq_lt_dec i i') as [[Hlt| ->]|Hlt].
        -- rewrite (Hfirst' i r2) in Hr by done. done.
        -- congruence.
        -- rewrite (Hfirst i' r) in Hc by done. done.
  - assert (head (List.filter (fun r => cell (DisplayName r)) df) = Some r1) as Hh
      by (by rewrite E1).
    apply filter_head_spec in Hh as (i & Hi & Hr & Hfirst).
    split.
    + intros [= <-]. exists i, r1. split_and!; [done..|]. left. done.
    + intros (i' & r & Hi' & <- & [(Hc & Hfirst') | (_ & _ & Hno)]).
      * destruct (lt_eq_lt_dec i i') as [[Hlt| ->]|Hlt].
        -- rewrite (Hfirst' i r1) in Hr by done. done.
        -- congruence.
        -- rewrite (Hfirst i' r) in Hc by done. done.
      * rewrite Hno in Hr; [done|]. by eapply list_elem_of_lookup_2.
Qed.

Lemma resolve_exact df name id :
  exact_stage df (_normalize_name name) = Some id → resolve df name = id.
Proof.
  intros H. unfold resolve. destruct df as [|r df]; [done|]. by rewrite H.
Qed.

Lemma resolve_partial df name id :
  exact_stage df (_normalize_name name) = None →
  partial_stage df (_normalize_name name) = Some id → resolve df name = id.
Proof.
  intros H1 H2. unfold resolve. destruct df as [|r df]; [done|].
  by rewrite H1, H2.
Qed.

Lemma resolve_keyword df name :
  exact_stage df (_normalize_name name) = None →
  partial_stage df (_normalize_name name) = None →
  resolve df name = default "" (keyword_stage df (_extract_keywords name)).
Proof.
  intros H1 H2. unfold resolve. destruct df as [|r df]; [done|].
  rewrite H1, H2. by destruct (keyword_stage _ _).
Qed.

(** C2 (amended).  The second stage matches in one direction only: it
    returns an id exactly when some record has a present DisplayName or
    Aliases cell whose normalized text contains the normalized input
    name; the id is that of the first such record by DisplayName, or,
    when no DisplayName matches, of the first by Aliases.  When the exact
    stage found nothing, that id is the resolver's answer. *)
Theorem partial_stage_one_direction df name id :
  (partial_stage df (_normalize_name name) = Some id ↔
   ∃ i r, df !! i = Some r ∧ PrimaryPayerId r = id ∧
     ((cell_contains (_normalize_name name) (DisplayName r) ∧
       ∀ j r', j < i → df !! j = Some r' →
               ¬ cell_contains (_normalize_name name) (DisplayName r')) ∨
      (cell_contains (_normalize_name name) (Aliases r) ∧
       (∀ j r', j < i → df !! j = Some r' →
                ¬ cell_contains (_normalize_name name) (Aliases r')) ∧
       ∀ r', r' ∈ df →
             ¬ cell_contains (_normalize_name name) (DisplayName r')))) ∧
  (exact_stage df (_normalize_name name) = None →
   partial_stage df (_normalize_name name) = Some id →
   resolve df name = id).
Proof.
  split; [|apply resolve_partial].
  unfold partial_stage. rewrite columns_spec.
  assert (∀ x, partial_cell (_normalize_name name) x = false ↔
               ¬ cell_contains (_normalize_name name) x) as Hneg.
  { intros x. rewrite <- partial_cell_spec. by destruct (partial_cell _ x). }
  split; intros (i & r & Hi & Hid & Hcase); exists i, r;
    (split; [done|]; split; [done|]).
  - destruct Hcase as [[Hc Hf] | (Hc & Hf & Hn)]; [left|right].
    + split; [by apply partial_cell_spec|]. intros j r' Hj Hr'.
      apply Hneg. eauto.
    + split_and!; [by apply partial_cell_spec| |].
      * intros j r' Hj Hr'. apply Hneg. eauto.
      * intros r' Hr'. apply Hneg. eauto.
  - destruct Hcase as [[Hc Hf] | (Hc & Hf & Hn)]; [left|right].
    + split; [by apply partial_cell_spec|]. intros j r' Hj Hr'.
      apply Hneg. eauto.
    + split_and!; [by apply partial_cell_spec| |].
      * intros j r' Hj Hr'. apply Hneg. eauto.
      * intros r' Hr'. apply Hneg. eauto.
Qed.

Lemma partial_stage_one_direction_witness :
  resolve (aetna_records (Some "") (Some "")) "AETNA H" = "A".
Proof.
  apply (proj2 (partial_stage_one_direction
                  (aetna_records (Some "") (Some "")) "AETNA H" "A"));
    vm_compute; reflexivity.
Defined.

(** C2, as stated, fails: the candidate field is a substring of the
    input, yet stage 2 finds nothing and the resolver reports no match. *)
Lemma partial_reverse_direction_fails :
  Py.contains (_normalize_name "AB") (_normalize_name "ABC") = true ∧
  partial_stage one_short_record (_normalize_name "ABC") = None ∧
  resolve one_short_record "ABC" = "".
Proof. vm_compute. done. Qed.

(** C9.  The stages run exact, then partial, then keyword, and the first
    success is the answer.  For the records A (AETNA HEALTH) and B
    (AETNA), whatever their aliases, the input AETNA is answered B by the
    exact stage; with empty aliases the partial and the keyword stage
    would each have answered A. *)
Theorem exact_beats_partial_and_keyword df name :
  (∀ id, exact_stage df (_normalize_name name) = Some id →
         resolve df name = id) ∧
  (∀ id, exact_stage df (_normalize_name name) = None →
         partial_stage df (_normalize_name name) = Some id →
         resolve df name = id) ∧
  (exact_stage df (_normalize_name name) = None →
   partial_stage df (_normalize_name name) = None →
   resolve df name = default "" (keyword_stage df (_extract_keywords name))) ∧
  (∀ a1 a2,
     exact_stage (aetna_records a1 a2) (_normalize_name "AETNA") = Some "B" ∧
     resolve (aetna_records a1 a2) "AETNA" = "B") ∧
  partial_stage (aetna_records (Some "") (Some "")) (_normalize_name "AETNA")
    = Some "A" ∧
  keyword_stage (aetna_records (Some "") (Some "")) (_extract_keywords "AETNA")
    = Some "A".
Proof.
  split_and!.
  - intros id. apply resolve_exact.
  - intros id. apply resolve_partial.
  - apply resolve_keyword.
  - intros a1 a2.
    assert (exact_stage (aetna_records a1 a2) (_normalize_name "AETNA")
            = Some "B") as H by (vm_compute; reflexivity).
    split; [done|]. by apply resolve_exact.
  - vm_compute. reflexivity.
  - vm_compute. reflexivity.
Qed.

Lemma exact_beats_partial_and_keyword_witness :
  resolve (aetna_records (Some "") (Some "")) "AETNA" = "B".
Proof.
  apply (proj1 (exact_beats_partial_and_keyword
                  (aetna_records (Some "") (Some "")) "AETNA")).
  vm_compute. reflexivity.
Defined.

Lemma columns_elem cell df id :
  first_in_columns cell columns df = Some id →
  ∃ r, r ∈ df ∧ PrimaryPayerId r = id.
Proof.
  intros (i & r & Hi & Hid & _)%columns_spec.
  exists r. split; [by eapply list_elem_of_lookup_2|done].
Qed.

Lemma columns_none cell df r :
  first_in_columns cell columns df = None → r ∈ df →
  cell (DisplayName r) = false ∧ cell (Aliases r) = false.
Proof.
  unfold columns. cbn [first_in_columns].
  destruct (List.filter (fun r => cell (DisplayName r)) df) eqn:E1; [|done].
  destruct (List.filter (fun r => cell (Aliases r)) df) eqn:E2; [|done].
  intros _ Hr. split.
  - by apply (proj1 (filter_nil_spec _ _) E1).
  - by apply (proj1 (filter_nil_spec _ _) E2).
Qed.

Lemma exact_cell_blank x : exact_cell "" x = true ↔ cell_is_blank x.
Proof.
  unfold exact_cell, cell_is_blank. destruct x as [v|].
  - rewrite String.eqb_eq. split; [eauto|]. by intros (? & [= <-] & ?).
  - split; [done|]. by intros (? & ? & _).
Qed.

Lemma exact_cell_not_blank x : exact_cell "" x = false ↔ ¬ cell_is_blank x.
Proof.
  rewrite <- exact_cell_blank. by destruct (exact_cell "" x).
Qed.

(** C10 (amended).  For an input name that normalizes to the empty string
    and a table with at least one present cell, the resolver answers
    with the id of a record of the table.  The exact stage answers when
    some cell normalizes to the empty string, column by column: with the
    first record whose DisplayName does, or, when no DisplayName does,
    with the first record whose Aliases does; and its answer is the
    resolver's.  It fails exactly when no cell normalizes to the empty
    string; then, the first record having a DisplayName, the partial
    stage succeeds trivially and the answer is the first record's id. *)
Theorem empty_name_resolution df name :
  _normalize_name name = "" →
  Exists (fun r => is_Some (DisplayName r) ∨ is_Some (Aliases r)) df →
  (∃ r, r ∈ df ∧ resolve df name = PrimaryPayerId r) ∧
  (∀ r0, head df = Some r0 → is_Some (DisplayName r0) →
         exact_stage df "" = None → resolve df name = PrimaryPayerId r0) ∧
  (∀ id, exact_stage df "" = Some id → resolve df name = id) ∧
  (∀ id, exact_stage df "" = Some id ↔
     ∃ i r, df !! i = Some r ∧ PrimaryPayerId r = id ∧
       ((cell_is_blank (DisplayName r) ∧
         ∀ j r', j < i → df !! j = Some r' → ¬ cell_is_blank (DisplayName r')) ∨
        (cell_is_blank (Aliases r) ∧
         (∀ j r', j < i → df !! j = Some r' → ¬ cell_is_blank (Aliases r')) ∧
         ∀ r', r' ∈ df → ¬ cell_is_blank (DisplayName r')))) ∧
  (exact_stage df "" = None ↔
     ∀ r, r ∈ df → ¬ cell_is_blank (DisplayName r) ∧ ¬ cell_is_blank (Aliases r)).
Proof.
  intros Hname Hcell. split_and!.
  - destruct (exact_stage df (_normalize_name name)) as [id|] eqn:He.
    { destruct (columns_elem _ _ _ He) as (r & Hr & Hid).
      exists r. split; [done|]. rewrite Hid. by apply resolve_exact. }
    destruct (partial_stage df (_normalize_name name)) as [id|] eqn:Hp.
    { destruct (columns_elem _ _ _ Hp) as (r & Hr & Hid).
      exists r. split; [done|]. rewrite Hid. by apply resolve_partial. }
    exfalso. apply Exists_exists in Hcell as (r & Hr & Hsome).
    destruct (columns_none _ _ r Hp Hr) as [Hd Ha]. rewrite Hname in Hd, Ha.
    destruct Hsome as [[v Hv] | [v Hv]].
    + rewrite Hv in Hd. cbn in Hd. by rewrite contains_empty in Hd.
    + rewrite Hv in Ha. cbn in Ha. by rewrite contains_empty in Ha.
  - intros r0 Hhead [v Hv] He. apply resolve_partial; rewrite Hname; [done|].
    destruct df as [|r df']; [done|]. injection Hhead as ->.
    unfold partial_stage, columns. cbn [first_in_columns List.filter].
    rewrite Hv. cbn [partial_cell]. by rewrite contains_empty.
  - intros id He. apply resolve_exact. by rewrite Hname.
  - intros id. unfold exact_stage. rewrite columns_spec.
    split; intros (i & r & Hi & Hid & Hcase); exists i, r;
      (split; [done|]; split; [done|]).
    + destruct Hcase as [[Hc Hf] | (Hc & Hf & Hn)]; [left|right].
      * split; [by apply exact_cell_blank|]. intros j r' Hj Hr'.
        apply exact_cell_not_blank. eauto.
      * split_and!; [by apply exact_cell_blank| |].
        -- intros j r' Hj Hr'. apply exact_cell_not_blank. eauto.
        -- intros r' Hr'. apply exact_cell_not_blank. eauto.
    + destruct Hcase as [[Hc Hf] | (Hc & Hf & Hn)]; [left|right].
      * split; [by apply exact_cell_blank|]. intros j r' Hj Hr'.
        apply exact_cell_not_blank. eauto.
      * split_and!; [by apply exact_cell_blank| |].
        -- intros j r' Hj Hr'. apply exact_cell_not_blank. eauto.
        -- intros r' Hr'. apply exact_cell_not_blank. eauto.
  - split.
    + intros He r Hr. destruct (columns_none _ _ r He Hr) as [Hd Ha].
      split; by apply exact_cell_not_blank.
    + intros Hnone. destruct (exact_stage df "") as [id|] eqn:He; [|done].
      exfalso. apply columns_spec in He as (i & r & Hi & _ & Hcase).
      apply list_elem_of_lookup_2 in Hi. destruct (Hnone r Hi) as [Hd Ha].
      destruct Hcase as [[Hc _] | (Hc & _)].
      * by apply Hd, exact_cell_blank.
      * by apply Ha, exact_cell_blank.
Qed.

Lemma empty_name_resolution_witness :
  (∃ r, r ∈ aetna_records (Some "AET") (Some "AH") ∧
        resolve (aetna_records (Some "AET") (Some "AH")) " -- " = PrimaryPayerId r) ∧
  resolve (aetna_records (Some "AET") (Some "AH")) " -- " = "A".
Proof.
  destruct (empty_name_resolution (aetna_records (Some "AET") (Some "AH")) " -- ")
    as (H1 & H2 & _).
  - vm_compute. reflexivity.
  - apply Exists_cons_hd. left. by eexists.
  - split; [exact H1|].
    apply (H2 (mkPayer "A" (Some "AETNA HEALTH") (Some "AET")));
      [reflexivity|by eexists|vm_compute; reflexivity].
Defined.

(** A record whose DisplayName normalizes to the empty string is found
    before an earlier record whose Aliases does: the exact stage reads
    the DisplayName column first. *)
Lemma blank_name_before_blank_alias :
  exact_stage blank_name_second_record (_normalize_name "") = Some "B" ∧
  resolve blank_name_second_record "" = "B".
Proof. vm_compute. done. Qed.

(** C10, as stated, fails: with a payer that has no alias further down
    the table, the exact stage answers first, and not with the first
    record. *)
Lemma empty_name_not_first_record :
  _normalize_name "" = "" ∧
  head two_records_blank_alias = Some (mkPayer "A" (Some "AETNA") (Some "AET")) ∧
  exact_stage two_records_blank_alias (_normalize_name "") = Some "B" ∧
  resolve two_records_blank_alias "" = "B".
Proof. vm_compute. done. Qed.

End ResolverProofs.

(** ** The batch engines *)

Import Table.

(** ** The gathered results are in task order *)

Lemma gather_slots_step {A} (tasks : list A) completion slots i :
  i < length tasks → length slots = length tasks →
  fold_left (fun slots i =>
               match tasks !! i with
               | Some r => <[i := Some r]> slots
               | None => slots
               end) completion slots !! i
  = if decide (i ∈ completion) then Some (tasks !! i) else slots !! i.
Proof.
  intros Hi. revert slots.
  induction completion as [|k rest IH]; intros slots Hlen; cbn [fold_left].
  - rewrite decide_False; [done|]. apply not_elem_of_nil.
  - rewrite IH.
    2:{ destruct (tasks !! k); [by rewrite length_insert|done]. }
    destruct (decide (i ∈ rest)) as [Hin|Hnin].
    + rewrite decide_True; [done|]. by apply list_elem_of_further.
    + destruct (decide (k = i)) as [->|Hne].
      * rewrite decide_True by apply list_elem_of_here.
        destruct (tasks !! i) as [r|] eqn:E.
        -- rewrite list_lookup_insert_eq; [done|lia].
        -- apply lookup_ge_None in E. lia.
      * rewrite decide_False.
        2:{ intros [?|?]%elem_of_cons; congruence. }
        destruct (tasks !! k); [|done]. by rewrite list_lookup_insert_ne.
Qed.

Lemma gather_slots_length {A} (tasks : list A) completion :
  length (gather_slots tasks completion) = length tasks.
Proof.
  unfold gather_slots.
  assert (∀ slots, length slots = length tasks →
    length (fold_left (fun slots i =>
               match tasks !! i with
               | Some r => <[i := Some r]> slots
               | None => slots
               end) completion slots) = length tasks) as H.
  { induction completion as [|k rest IH]; intros slots Hlen; cbn [fold_left]; [done|].
    apply IH. destruct (tasks !! k); [by rewrite length_insert|done]. }
  apply H, length_replicate.
Qed.

Lemma gather_permutation {A} (tasks : list A) completion :
  completion ≡ₚ seq 0 (length tasks) →
  gather tasks completion = Some tasks.
Proof.
  intros Hperm. unfold gather.
  assert (gather_slots tasks completion = Some <$> tasks) as ->.
  { apply list_eq. intros i. rewrite list_lookup_fmap.
    destruct (decide (i < length tasks)) as [Hi|Hi].
    - unfold gather_slots. rewrite gather_slots_step;
        [|done|apply length_replicate].
      rewrite decide_True.
      + destruct (tasks !! i) eqn:E; [done|].
        apply lookup_ge_None in E. lia.
      + rewrite Hperm. apply elem_of_seq. lia.
    - rewrite (proj2 (lookup_ge_None _ _)), (proj2 (lookup_ge_None tasks _));
        [done|lia|rewrite gather_slots_length; lia]. }
  by apply mapM_fmap_Some.
Qed.

(** ** The spreadsheet processor keeps every response at its index *)

Section ProcessorProofs.
Import Processor.
Context {Json : Type}.

Lemma store_all_positional (f : nat → Payload → Response Json)
    (l : list Payload) (n0 : nat) (slots : list (option (Response Json))) :
  length slots = n0 + length l →
  store_all (imap (fun i p => Returned (n0 + i) (f (n0 + i) p)) l) slots
  = Some (take n0 slots ++ (Some <$> imap (fun i p => f (n0 + i) p) l)).
Proof.
  revert n0 slots. induction l as [|p l IH]; intros n0 slots Hlen.
  - cbn in *. rewrite (right_id_L [] (++)), take_ge; [done|lia].
  - cbn [imap store_all store]. cbn in Hlen.
    rewrite decide_True by lia. cbn [mbind option_bind].
    rewrite (imap_ext _ (fun i p => Returned (S n0 + i) (f (S n0 + i) p))).
    2:{ intros i x _. cbn. by rewrite Nat.add_succ_r. }
    rewrite IH by (rewrite length_insert; lia).
    f_equal. rewrite Nat.add_0_r.
    rewrite (imap_ext (fun i p => f (n0 + S i) p)
                      (fun i p => f (S n0 + i) p)).
    2:{ intros i x _. cbn. by rewrite Nat.add_succ_r. }
    rewrite fmap_cons, (take_S_r _ _ (Some (f n0 p))).
    + rewrite take_insert_ge by lia. by rewrite <- (assoc_L (++)).
    + apply list_lookup_insert_eq. lia.
Qed.

Lemma send_requests_in_order (net : nat → Payload → Outcome Json)
    completion payloads :
  completion ≡ₚ seq 0 (length payloads) →
  send_requests_concurrent net completion payloads
  = Some (imap (fun i p => to_response (net i p)) payloads).
Proof.
  intros Hperm. unfold send_requests_concurrent.
  rewrite gather_permutation by (by rewrite length_imap).
  unfold _make_request.
  rewrite (store_all_positional (fun i p => to_response (net i p)) payloads 0)
    by (by rewrite length_replicate).
  rewrite take_0. cbn [app Nat.add]. f_equal.
  apply list_eq. intros i.
  rewrite !list_lookup_fmap. by destruct (_ !! i).
Qed.
End ProcessorProofs.

Lemma alter_alter_same {A} (f g : A → A) i (l : list A) :
  alter f i (alter g i l) = alter (f ∘ g) i l.
Proof.
  apply list_eq. intros j. destruct (decide (i = j)) as [->|Hne].
  - rewrite !list_lookup_alter_eq. by destruct (l !! j).
  - by rewrite !list_lookup_alter_ne.
Qed.

Lemma alter_alter_swap {A} (f g : A → A) i j (l : list A) :
  i ≠ j → alter f i (alter g j l) = alter g j (alter f i l).
Proof.
  intros Hne. apply list_eq. intros k.
  destruct (decide (i = k)) as [->|Hik], (decide (j = k)) as [->|Hjk];
    [congruence| | |].
  - rewrite list_lookup_alter_eq, !list_lookup_alter_ne by done.
    by rewrite list_lookup_alter_eq.
  - rewrite list_lookup_alter_ne, !list_lookup_alter_eq by done.
    by rewrite list_lookup_alter_ne.
  - by rewrite !list_lookup_alter_ne.
Qed.

Section EngineProofs.
Import ClaimService.
Variable get_status_code : string → string.
Variable get_reason_code : string → string.
Variable denial_info : list DenialRow.

Local Abbreviation process_result := (process_result get_status_code get_reason_code denial_info).
Local Abbreviation process_results := (process_results get_status_code get_reason_code denial_info).
Local Abbreviation state_after := (state_after get_status_code get_reason_code denial_info).
Local Abbreviation row_after := (row_after get_status_code get_reason_code denial_info).
Local Abbreviation result_entry_of := (result_entry_of get_status_code get_reason_code).

Lemma iloc_set_lt index col v (d : list (gmap string Cell)) :
  index < length d →
  iloc_set index col v d = Some (alter (insert col v) index d).
Proof. intros H. unfold iloc_set. by rewrite decide_True. Qed.

Lemma process_result_spec st t :
  (∀ i, index_of t = Some i → i < length (df st)) →
  process_result st t = Some (state_after st t).
Proof.
  intros Hidx. destruct t as [msg | index payload response].
  { cbn. unfold ClaimService.state_after. cbn.
    by rewrite (right_id_L [] (++)). }
  specialize (Hidx index eq_refl).
  unfold process_result, ClaimService.state_after, ClaimService.row_after,
    ClaimService.result_entry_of, failure_of, denial_after, decodable.
  destruct (bool_decide (status_code response = Some 200%Z)) eqn:Hs;
    cbn [negb].
  2:{ rewrite iloc_set_lt by done. cbn. by rewrite (right_id_L [] (++)). }
  destruct (data response ≫= x12) as [[|a x]|] eqn:Hx; cbn [fmap option_fmap option_map option_list option_rect].
  1,3: rewrite !(right_id_L [] (++)); f_equal; f_equal;
       symmetry; by apply list_alter_id.
  destruct (default [] (data response ≫= claims)) as [|entry rest] eqn:Hc.
  - cbn [mbind option_bind]. rewrite iloc_set_lt by done. cbn.
    by rewrite (right_id_L [] (++)).
  - rewrite !iloc_set_lt by (rewrite ?length_alter; done).
    cbn [mbind option_bind].
    rewrite !iloc_set_lt by (rewrite ?length_alter; done). cbn.
    rewrite !iloc_set_lt by (rewrite ?length_alter; done). cbn.
    rewrite !iloc_set_lt by (rewrite ?length_alter; done). cbn.
    rewrite !iloc_set_lt by (rewrite ?length_alter; done). cbn.
    rewrite !alter_alter_same, (right_id_L [] (++)). done.
Qed.

Lemma state_after_length st t :
  length (df (state_after st t)) = length (df st).
Proof. destruct t; cbn; [done|apply length_alter]. Qed.

Lemma fold_state_after_length ts st :
  length (df (fold_left state_after ts st)) = length (df st).
Proof.
  revert st. induction ts as [|t ts IH]; intros st; cbn [fold_left]; [done|].
  by rewrite IH, state_after_length.
Qed.

Lemma process_results_spec ts st :
  Forall (fun t => ∀ i, index_of t = Some i → i < length (df st)) ts →
  process_results ts st = Some (fold_left state_after ts st).
Proof.
  revert st. induction ts as [|t ts IH]; intros st Hidx; cbn [fold_left]; [done|].
  apply Forall_cons in Hidx as [Ht Hts].
  cbn [ClaimService.process_results]. rewrite process_result_spec by done.
  cbn [mbind option_bind]. apply IH.
  eapply Forall_impl; [exact Hts|]. intros t' Ht' i Hi.
  rewrite state_after_length. by apply Ht'.
Qed.

Lemma fold_state_after_lists ts st :
  results (fold_left state_after ts st) = results st ++ omap result_entry_of ts ∧
  failed_requests (fold_left state_after ts st)
    = failed_requests st ++ omap failure_of ts.
Proof.
  revert st. induction ts as [|t ts IH]; intros st; cbn [fold_left omap list_omap].
  - by rewrite !(right_id_L [] (++)).
  - destruct (IH (state_after st t)) as [-> ->]. cbn [results failed_requests ClaimService.state_after].
    rewrite <- !(assoc_L (++)).
    by destruct (result_entry_of t), (failure_of t).
Qed.

Lemma fold_state_after_frame ts st j :
  Forall (fun t => index_of t ≠ Some j) ts →
  df (fold_left state_after ts st) !! j = df st !! j.
Proof.
  revert st. induction ts as [|t ts IH]; intros st Hidx; cbn [fold_left]; [done|].
  apply Forall_cons in Hidx as [Ht Hts]. rewrite IH by done.
  destruct t as [msg|i p r]; cbn; [done|].
  apply list_lookup_alter_ne. cbn in Ht. congruence.
Qed.

(** The tasks of a batch carry their positions. *)
Lemma tasks_of_lookup net payloads i p :
  payloads !! i = Some p →
  tasks_of net payloads !! i = Some (Returned i p (to_response (net i p))).
Proof.
  intros Hp. unfold tasks_of. rewrite list_lookup_imap, Hp. done.
Qed.

Lemma tasks_of_index net payloads i t :
  tasks_of net payloads !! i = Some t → index_of t = Some i.
Proof.
  unfold tasks_of. rewrite list_lookup_imap.
  destruct (payloads !! i); [|done]. by intros [= <-].
Qed.

Lemma tasks_of_indices_lt net payloads n :
  length payloads ≤ n →
  Forall (fun t => ∀ i, index_of t = Some i → i < n) (tasks_of net payloads).
Proof.
  intros Hn. apply Forall_lookup. intros k t Hk i Hi.
  rewrite (tasks_of_index _ _ _ _ Hk) in Hi. injection Hi as <-.
  apply lookup_lt_Some in Hk. unfold tasks_of in Hk.
  rewrite length_imap in Hk. lia.
Qed.

Lemma tasks_of_take_index net payloads i :
  Forall (fun t => index_of t ≠ Some i) (take i (tasks_of net payloads)).
Proof.
  apply Forall_lookup. intros k t Hk.
  apply lookup_take_Some in Hk as [Hk Hlt].
  rewrite (tasks_of_index _ _ _ _ Hk). intros [= ->]. lia.
Qed.

Lemma tasks_of_drop_index net payloads i :
  Forall (fun t => index_of t ≠ Some i) (drop (S i) (tasks_of net payloads)).
Proof.
  apply Forall_lookup. intros k t Hk. rewrite lookup_drop in Hk.
  rewrite (tasks_of_index _ _ _ _ Hk). intros [= Heq]. lia.
Qed.

(** Row [i] of the final table is row [i] of the input, changed by the
    response of record [i] alone. *)
Lemma fold_tasks_row net payloads st i p :
  payloads !! i = Some p →
  df (fold_left state_after (tasks_of net payloads) st) !! i =
    row_after (denial_data (fold_left state_after
                              (take i (tasks_of net payloads)) st))
              (to_response (net i p))
    <$> df st !! i.
Proof.
  intros Hp. pose proof (tasks_of_lookup net _ _ _ Hp) as Ht.
  rewrite <- (take_drop_middle _ _ _ Ht) at 1.
  rewrite fold_left_app. cbn [fold_left].
  rewrite fold_state_after_frame by apply tasks_of_drop_index.
  cbn [df ClaimService.state_after]. rewrite list_lookup_alter_eq.
  by rewrite fold_state_after_frame by apply tasks_of_take_index.
Qed.

Lemma state_after_failed st k p r :
  status_code r ≠ Some 200%Z →
  state_after st (Returned k p r) =
  mark_failed k {| f_request_payload := Some p; f_error := error_text r;
                   f_status_code := status_code r |} st.
Proof.
  intros Hs. unfold ClaimService.state_after, mark_failed,
    ClaimService.result_entry_of, failure_of, ClaimService.row_after,
    denial_after, decodable.
  rewrite bool_decide_eq_false_2 by done. cbn.
  by rewrite (right_id_L [] (++)).
Qed.

Lemma decodable_no_failure i p r :
  is_Some (decodable r) → failure_of (Returned i p r) = None.
Proof.
  intros [x Hx]. unfold failure_of. rewrite Hx.
  unfold decodable in Hx. by destruct (bool_decide _).
Qed.

Lemma state_after_mark_failed k e st t :
  failure_of t = None → index_of t ≠ Some k →
  state_after (mark_failed k e st) t = mark_failed k e (state_after st t).
Proof.
  intros Hf Hi. unfold ClaimService.state_after, mark_failed.
  cbn [results failed_requests df denial_data]. rewrite Hf.
  cbn [option_list option_rect]. rewrite !(right_id_L [] (++)).
  f_equal. destruct t as [msg|i p r]; [done|].
  apply alter_alter_swap. cbn in Hi. congruence.
Qed.

Lemma fold_mark_failed k e ts st :
  Forall (fun t => failure_of t = None ∧ index_of t ≠ Some k) ts →
  fold_left state_after ts (mark_failed k e st) =
  mark_failed k e (fold_left state_after ts st).
Proof.
  revert st. induction ts as [|t ts IH]; intros st Hts; cbn [fold_left]; [done|].
  apply Forall_cons in Hts as [[Hf Hi] Hts].
  by rewrite state_after_mark_failed, IH.
Qed.

Lemma omap_all_None {A B} (f : A → option B) (l : list A) :
  Forall (fun x => f x = None) l → omap f l = [].
Proof.
  induction 1 as [|x l Hx _ IH]; cbn; [done|]. by rewrite Hx.
Qed.

Lemma row_after_decodable dd r x row :
  decodable r = Some x →
  row_after dd r row !! "claim_status"
  = Some (Val (Converter.render_x12 get_status_code get_reason_code x)).
Proof.
  intros Hx. unfold ClaimService.row_after. rewrite Hx.
  assert (bool_decide (status_code r = Some 200%Z) = true) as ->.
  { unfold decodable in Hx. by destruct (bool_decide _). }
  destruct (default [] (data r ≫= claims)); apply lookup_insert_eq.
Qed.
End EngineProofs.

Lemma scrambled_permutation : Demo.scrambled ≡ₚ seq 0 5.
Proof. apply (bool_decide_unpack _). vm_compute. exact I. Qed.

Lemma length_omap_is_Some {A B} (f : A → option B) (l : list A) :
  Forall (fun x => is_Some (f x)) l → length (omap f l) = length l.
Proof.
  induction 1 as [|x l [y Hy] _ IH]; cbn; [done|]. rewrite Hy. cbn. by rewrite IH.
Qed.

Section BatchTheorems.
Import ClaimService.
Variable get_status_code : string → string.
Variable get_reason_code : string → string.
Variable denial_info : list DenialRow.

Local Abbreviation submit := (submit_claim_status_requests get_status_code get_reason_code denial_info).
Local Abbreviation state_after := (state_after get_status_code get_reason_code denial_info).
Local Abbreviation row_after := (row_after get_status_code get_reason_code denial_info).
Local Abbreviation result_entry_of := (result_entry_of get_status_code get_reason_code).

Lemma submit_spec net completion payloads df0 :
  completion ≡ₚ seq 0 (length payloads) →
  length df0 = length payloads →
  submit net completion payloads df0 =
  let st := fold_left state_after (tasks_of net payloads) (initial_state df0) in
  Some (results st, failed_requests st, df st).
Proof.
  intros Hperm Hlen. unfold submit_claim_status_requests.
  fold (tasks_of net payloads).
  rewrite gather_permutation by (unfold tasks_of; by rewrite length_imap).
  cbn [mbind option_bind].
  rewrite process_results_spec; [done|].
  apply tasks_of_indices_lt. cbn. lia.
Qed.

(** C6 (amended).  Whatever the order in which the requests complete:
    the spreadsheet processor returns one response per payload, the
    response of record [i] at position [i]; the claims engine returns
    the successes and the failures each in input order but compacted
    (an entry carries its request payload, not its index), and a table
    of as many rows as records in which row [i] is the input row [i]
    changed by the response of record [i]. *)
Theorem batch_results_independent_of_completion {Json}
    (pnet : nat → Processor.Payload → Processor.Outcome Json)
    (pcompletion : list nat) (ppayloads : list Processor.Payload)
    (net : nat → Payload → Outcome) (completion : list nat)
    (payloads : list Payload) (df0 : list (gmap string Cell)) :
  pcompletion ≡ₚ seq 0 (length ppayloads) →
  completion ≡ₚ seq 0 (length payloads) →
  length df0 = length payloads →
  Processor.send_requests_concurrent pnet pcompletion ppayloads
    = Some (imap (fun i p => Processor.to_response (pnet i p)) ppayloads) ∧
  ∃ df',
    submit net completion payloads df0 =
      Some (omap result_entry_of (tasks_of net payloads),
            omap failure_of (tasks_of net payloads), df') ∧
    length df' = length payloads ∧
    ∀ i p, payloads !! i = Some p →
      ∃ row dd, df0 !! i = Some row ∧
                df' !! i = Some (row_after dd (to_response (net i p)) row).
Proof.
  intros Hpperm Hperm Hlen. split; [by apply send_requests_in_order|].
  rewrite submit_spec by done. cbn zeta.
  destruct (fold_state_after_lists get_status_code get_reason_code denial_info
              (tasks_of net payloads) (initial_state df0)) as [-> ->].
  eexists. split; [reflexivity|]. split.
  - by rewrite fold_state_after_length.
  - intros i p Hp. rewrite (fold_tasks_row _ _ _ net payloads _ i p Hp).
    destruct (df0 !! i) as [row|] eqn:Hrow.
    + cbn [df initial_state]. rewrite Hrow. eauto.
    + apply lookup_ge_None in Hrow. apply lookup_lt_Some in Hp. lia.
Qed.

(** C7.  In a batch where record [k] gets a non-200 status and every
    other record a decodable response, the engine returns a table of
    as many rows as records, in input order; row [k] is the row of the
    run without record [k] (the input row) with the status text set to
    the sentinel; exactly one failure entry is returned, carrying the
    payload of record [k] and its status; every other row, and the
    result list, are those of the run without record [k], the row's
    status text being the rendering of the record's own transaction. *)
Theorem single_rejection_is_isolated
    (net : nat → Payload → Outcome) (completion : list nat)
    (payloads : list Payload) (df0 : list (gmap string Cell))
    (k : nat) (pk : Payload) (s : Z) (body : Data) :
  length df0 = length payloads →
  completion ≡ₚ seq 0 (length payloads) →
  payloads !! k = Some pk →
  net k pk = Http s body → s ≠ 200%Z →
  (∀ j p, j ≠ k → payloads !! j = Some p →
          is_Some (decodable (to_response (net j p)))) →
  ∃ st,
    process_results get_status_code get_reason_code denial_info
      (delete k (tasks_of net payloads)) (initial_state df0) = Some st ∧
    failed_requests st = [] ∧
    df st !! k = df0 !! k ∧
    submit net completion payloads df0 =
      Some (results st,
            [ {| f_request_payload := Some pk;
                 f_error := default "Unknown error" (message body);
                 f_status_code := Some s |} ],
            alter (insert "claim_status" (Val "Payer not supported")) k (df st)) ∧
    length (df st) = length payloads ∧
    length (results st) = length payloads - 1 ∧
    ∀ j p, j ≠ k → payloads !! j = Some p →
      ∃ row x, df st !! j = Some row ∧
               decodable (to_response (net j p)) = Some x ∧
               row !! "claim_status" =
                 Some (Val (Converter.render_x12 get_status_code
                              get_reason_code x)).
Proof.
  intros Hlen Hperm Hk Hnet Hs Hothers.
  set (tasks := tasks_of net payloads).
  pose proof (tasks_of_lookup net _ _ _ Hk) as Htk. fold tasks in Htk.
  assert (Forall (fun t => (failure_of t = None ∧ index_of t ≠ Some k) ∧
                           is_Some (result_entry_of t))
                 (delete k tasks)) as Hclean'.
  { apply Forall_lookup. intros i t Hi.
    rewrite list_lookup_delete in Hi.
    assert (∃ j, j ≠ k ∧ tasks !! j = Some t) as (j & Hj & Ht).
    { case_decide; [exists i|exists (S i)]; split; (lia || done). }
    unfold tasks, tasks_of in Ht. rewrite list_lookup_imap in Ht.
    destruct (payloads !! j) as [p|] eqn:Hp; [|done]. injection Ht as <-.
    destruct (Hothers j p Hj Hp) as [x Hx].
    split; [split; [apply decodable_no_failure; eauto|cbn; congruence]|].
    cbn. rewrite Hx. by eexists. }
  apply Forall_and in Hclean' as [Hclean Hentries].
  set (st := fold_left state_after (delete k tasks) (initial_state df0)).
  assert (length (df st) = length payloads) as Hlenst.
  { unfold st. by rewrite fold_state_after_length. }
  assert (failed_requests st = []) as Hfailed.
  { unfold st.
    rewrite (proj2 (fold_state_after_lists _ _ _ _ _)).
    cbn [failed_requests initial_state app]. apply omap_all_None.
    eapply Forall_impl; [exact Hclean|]. by intros t [? _]. }
  assert (fold_left state_after tasks (initial_state df0) =
          mark_failed k {| f_request_payload := Some pk;
                           f_error := default "Unknown error" (message body);
                           f_status_code := Some s |} st) as Hfull.
  { rewrite <- (take_drop_middle _ _ _ Htk), fold_left_app. cbn [fold_left].
    rewrite state_after_failed by (rewrite Hnet; cbn; congruence).
    rewrite fold_mark_failed.
    2:{ rewrite delete_take_drop in Hclean.
        by apply Forall_app in Hclean as [_ ?]. }
    rewrite <- fold_left_app, <- delete_take_drop. fold st.
    rewrite Hnet. unfold error_text. cbn. by destruct (message body). }
  exists st. split_and!; try done.
  - apply process_results_spec. rewrite delete_take_drop.
    pose proof (tasks_of_indices_lt net payloads (length (df (initial_state df0))))
      as Hall.
    apply Forall_app. split; [apply Forall_take|apply Forall_drop];
      apply Hall; cbn; lia.
  - unfold st. apply fold_state_after_frame.
    eapply Forall_impl; [exact Hclean|]. by intros t [_ ?].
  - rewrite submit_spec by done. cbn zeta. fold tasks. rewrite Hfull.
    cbn [results failed_requests df mark_failed]. by rewrite Hfailed.
  - unfold st. rewrite (proj1 (fold_state_after_lists _ _ _ _ _)).
    cbn [results initial_state app].
    rewrite length_omap_is_Some by done.
    rewrite length_delete by (by eexists).
    unfold tasks, tasks_of. by rewrite length_imap.
  - intros j p Hj Hp. destruct (Hothers j p Hj Hp) as [x Hx].
    pose proof (fold_tasks_row get_status_code get_reason_code denial_info
                  net payloads (initial_state df0) j p Hp) as Hrow.
    fold tasks in Hrow. rewrite Hfull in Hrow at 1.
    cbn [df mark_failed initial_state] in Hrow.
    rewrite list_lookup_alter_ne in Hrow by done.
    destruct (df0 !! j) as [row|] eqn:Hrow0.
    + eexists _, x. split; [exact Hrow|]. split; [done|].
      by apply row_after_decodable.
    + apply lookup_ge_None in Hrow0. apply lookup_lt_Some in Hp. lia.
Qed.
End BatchTheorems.

Lemma batch_results_independent_of_completion_witness :
  Processor.send_requests_concurrent Demo.echo_net Demo.scrambled Demo.five_payloads
    = Some (imap (fun i p => Processor.to_response (Demo.echo_net i p))
                 Demo.five_payloads) ∧
  ∃ df',
    ClaimService.submit_claim_status_requests Demo.label Demo.label []
      Demo.second_rejected [2; 0; 1] Demo.three_payloads Demo.three_rows =
      Some (omap (ClaimService.result_entry_of Demo.label Demo.label)
                 (ClaimService.tasks_of Demo.second_rejected Demo.three_payloads),
            omap ClaimService.failure_of
                 (ClaimService.tasks_of Demo.second_rejected Demo.three_payloads),
            df') ∧
    length df' = length Demo.three_payloads ∧
    ∀ i p, Demo.three_payloads !! i = Some p →
      ∃ row dd, Demo.three_rows !! i = Some row ∧
        df' !! i = Some (ClaimService.row_after Demo.label Demo.label [] dd
                           (ClaimService.to_response (Demo.second_rejected i p)) row).
Proof.
  apply (batch_results_independent_of_completion Demo.label Demo.label []
           Demo.echo_net Demo.scrambled Demo.five_payloads
           Demo.second_rejected [2; 0; 1] Demo.three_payloads Demo.three_rows).
  - exact scrambled_permutation.
  - apply (bool_decide_unpack _). vm_compute. exact I.
  - reflexivity.
Defined.

(** C6, as stated, fails: with one record rejected, the result list of
    the claims engine is shorter than the batch and its entry 1 belongs
    to record 2; the failure entry holds the payload, no index. *)
Lemma compacted_results_lose_position :
  ∃ results failed df',
    ClaimService.submit_claim_status_requests Demo.label Demo.label []
      Demo.second_rejected [2; 0; 1] Demo.three_payloads Demo.three_rows
      = Some (results, failed, df') ∧
    length results = 2 ∧
    ClaimService.r_request_payload <$> results !! 1
      = Some (Demo.claim_payload "M2") ∧
    Demo.three_payloads !! 1 = Some (Demo.claim_payload "M1") ∧
    Demo.claim_payload "M2" ≠ Demo.claim_payload "M1" ∧
    ClaimService.f_request_payload <$> failed
      = [Some (Demo.claim_payload "M1")].
Proof.
  eexists _, _, _. split; [vm_compute; reflexivity|].
  split_and!; try reflexivity. discriminate.
Qed.

Lemma single_rejection_is_isolated_witness :
  ∃ st,
    ClaimService.process_results Demo.label Demo.label []
      (delete 1 (ClaimService.tasks_of Demo.second_rejected Demo.three_payloads))
      (ClaimService.initial_state Demo.three_rows) = Some st ∧
    ClaimService.failed_requests st = [] ∧
    ClaimService.df st !! 1 = Demo.three_rows !! 1 ∧
    ClaimService.submit_claim_status_requests Demo.label Demo.label []
      Demo.second_rejected [2; 0; 1] Demo.three_payloads Demo.three_rows =
      Some (ClaimService.results st,
            [ {| ClaimService.f_request_payload := Some (Demo.claim_payload "M1");
                 ClaimService.f_error := "Payer not found";
                 ClaimService.f_status_code := Some 404%Z |} ],
            alter (insert "claim_status" (Val "Payer not supported")) 1
                  (ClaimService.df st)) ∧
    length (ClaimService.df st) = 3 ∧
    length (ClaimService.results st) = 2 ∧
    ∀ j p, j ≠ 1 → Demo.three_payloads !! j = Some p →
      ∃ row x, ClaimService.df st !! j = Some row ∧
        ClaimService.decodable
          (ClaimService.to_response (Demo.second_rejected j p)) = Some x ∧
        row !! "claim_status" =
          Some (Val (Converter.render_x12 Demo.label Demo.label x)).
Proof.
  apply (single_rejection_is_isolated Demo.label Demo.label []
           Demo.second_rejected [2; 0; 1] Demo.three_payloads Demo.three_rows
           1 (Demo.claim_payload "M1") 404 Demo.rejected_body).
  - reflexivity.
  - apply (bool_decide_unpack _). vm_compute. exact I.
  - reflexivity.
  - reflexivity.
  - discriminate.
  - intros j p Hj _. unfold Demo.second_rejected.
    rewrite decide_False by done. by eexists.
Defined.

(** ** Payload construction *)

Section PayloadProofs.
Import ClaimService.
Variable _parse_date : Cell → string.
Variable int_str : string → string.
Variable get_all_payers : string → list Resolver.PayerRecord.

Local Abbreviation payload_step := (payload_step _parse_date int_str get_all_payers).
Local Abbreviation create := (_create_claim_payload_from_csv _parse_date int_str).
Local Abbreviation chosen_id := (chosen_id get_all_payers).
Local Abbreviation mark_row := (mark_row get_all_payers).

Lemma payload_step_eq ps d label row :
  payload_step (ps, d) (label, row) =
  (ps ++ [create row (chosen_id row)], alter (mark_row row) label d).
Proof.
  unfold ClaimService.payload_step, ClaimService.mark_row, ClaimService.chosen_id.
  destruct (String.length (candidate_id row) <? 5); [done|].
  f_equal. symmetry. by apply list_alter_id.
Qed.

Lemma payload_fold_payloads l ps d :
  (fold_left payload_step l (ps, d)).1 =
  ps ++ ((fun lr => create lr.2 (chosen_id lr.2)) <$> l).
Proof.
  revert ps d. induction l as [|[label row] l IH]; intros ps d; cbn [fold_left].
  - cbn. by rewrite (right_id_L [] (++)).
  - rewrite payload_step_eq, IH. by rewrite <- (assoc_L (++)).
Qed.

Lemma payload_fold_frame l ps d i :
  Forall (fun lr => lr.1 ≠ i) l →
  (fold_left payload_step l (ps, d)).2 !! i = d !! i.
Proof.
  revert ps d. induction l as [|[label row] l IH]; intros ps d Hl; cbn [fold_left]; [done|].
  apply Forall_cons in Hl as [Hne Hl]. rewrite payload_step_eq, IH by done.
  by apply list_lookup_alter_ne.
Qed.

Lemma generate_payloads_row csv i row :
  csv !! i = Some row →
  (generate_payloads_from_csv _parse_date int_str get_all_payers csv).1 !! i
    = Some (create (add_columns row) (chosen_id (add_columns row))) ∧
  (generate_payloads_from_csv _parse_date int_str get_all_payers csv).2 !! i
    = Some (mark_row (add_columns row) (add_columns row)).
Proof.
  intros Hrow. unfold generate_payloads_from_csv.
  set (d := add_columns <$> csv).
  assert (d !! i = Some (add_columns row)) as Hd
    by (unfold d; by rewrite list_lookup_fmap, Hrow).
  split.
  - rewrite payload_fold_payloads. cbn [app].
    rewrite list_lookup_fmap, list_lookup_imap, Hd. done.
  - assert (imap pair d !! i = Some (i, add_columns row)) as Hi
      by (by rewrite list_lookup_imap, Hd).
    rewrite <- (take_drop_middle _ _ _ Hi), fold_left_app. cbn [fold_left].
    destruct (fold_left payload_step (take i (imap pair d)) ([], d))
      as [ps1 d1] eqn:E1.
    rewrite payload_step_eq, payload_fold_frame.
    2:{ apply Forall_lookup. intros k [l r] Hk. rewrite lookup_drop in Hk.
        apply list_lookup_imap_Some in Hk as (y & Hy & [= -> ->]).
        cbn. lia. }
    rewrite list_lookup_alter_eq.
    assert (d1 !! i = d !! i) as ->.
    { change d1 with ((ps1, d1).2). rewrite <- E1.
      apply payload_fold_frame. apply Forall_lookup. intros k [l r] Hk.
      apply lookup_take_Some in Hk as [Hk Hlt].
      apply list_lookup_imap_Some in Hk as (y & Hy & [= -> ->]).
      cbn. lia. }
    by rewrite Hd.
Qed.
End PayloadProofs.

(** C8 (amended).  A candidate id shorter than five characters (after
    trimming; absent counts as empty) is replaced by the resolver's
    answer for (organization name, candidate id), and a longer one is
    used as it is, in an expression that does not mention the directory.
    The claims engine also writes the resolved id into the row's id
    column; the spreadsheet processor only reads its record. *)
Theorem payer_id_threshold
    (_parse_date : Cell → string) (int_str : string → string)
    (get_all_payers : string → list Resolver.PayerRecord)
    (get_payers_from_db : option string → list Resolver.PayerRecord)
    (csv : list (gmap string Cell)) (i : nat) (row record : gmap string Cell) :
  csv !! i = Some row →
  let row' := ClaimService.add_columns row in
  let cand := ClaimService.candidate_id row' in
  let name := ClaimService.text_of row' (quoted "payer name") "payer name" in
  let out := ClaimService.generate_payloads_from_csv
               _parse_date int_str get_all_payers csv in
  let ecs_id := Processor.safe_value (Processor.get_or record "ECS ID" "payer id") in
  let payor_name :=
    Processor.safe_value (Processor.get_or record "Payor Name" "payer name") in
  let made := Processor.create_payload get_payers_from_db record in
  (String.length cand < 5 →
     out.1 !! i =
       Some (ClaimService._create_claim_payload_from_csv _parse_date int_str row'
               (Resolver.get_trading_partner_id get_all_payers name cand)) ∧
     out.2 !! i =
       Some (<["ECS PAYOR ID" :=
                Val (Resolver.get_trading_partner_id get_all_payers name cand)]>
               row')) ∧
  (5 ≤ String.length cand →
     out.1 !! i =
       Some (ClaimService._create_claim_payload_from_csv _parse_date int_str
               row' cand) ∧
     out.2 !! i = Some row') ∧
  made.2 = record ∧
  (∀ s, ecs_id = Some s → 5 ≤ String.length s →
        Processor.tradingPartnerServiceId made.1 = s) ∧
  ((∀ s, ecs_id = Some s → String.length s < 5) →
     Processor.tradingPartnerServiceId made.1 =
       Resolver.get_trading_partner_id get_payers_from_db
         (Processor.str_opt payor_name) ecs_id).
Proof.
  intros Hrow row' cand name out ecs_id payor_name made.
  destruct (generate_payloads_row _parse_date int_str get_all_payers csv i row Hrow)
    as [Hp Hd].
  fold row' out in Hp, Hd.
  unfold ClaimService.mark_row, ClaimService.chosen_id in Hp, Hd.
  fold cand name in Hp, Hd.
  split_and!.
  - intros Hlt. apply Nat.ltb_lt in Hlt. by rewrite Hlt in Hp, Hd.
  - intros Hge. apply Nat.ltb_ge in Hge. by rewrite Hge in Hp, Hd.
  - done.
  - intros s Hs Hlen. unfold made, Processor.create_payload.
    cbn [fst Processor.tradingPartnerServiceId].
    unfold ecs_id in Hs. rewrite Hs.
    rewrite (proj2 (Nat.leb_le _ _) Hlen).
    destruct s; [cbn in Hlen; lia|done].
  - intros Hshort. unfold made, Processor.create_payload.
    cbn [fst Processor.tradingPartnerServiceId].
    fold ecs_id payor_name. destruct ecs_id as [s|] eqn:He; [|done].
    specialize (Hshort s eq_refl).
    rewrite (proj2 (Nat.leb_gt _ _) Hshort). by rewrite andb_false_r.
Qed.

Lemma payer_id_threshold_witness :
  ClaimService.tradingPartnerServiceId <$>
    (ClaimService.generate_payloads_from_csv Demo.no_date Demo.same_text
       Demo.aetna_directory [Demo.short_id_row; Demo.long_id_row]).1
  = ["60054"; "87726"] ∧
  (ClaimService.generate_payloads_from_csv Demo.no_date Demo.same_text
     Demo.aetna_directory [Demo.short_id_row; Demo.long_id_row]).2 !! 0
  = Some (<["ECS PAYOR ID" := Val "60054"]>
            (ClaimService.add_columns Demo.short_id_row)).
Proof.
  destruct (payer_id_threshold Demo.no_date Demo.same_text
              Demo.aetna_directory Demo.aetna_directory
              [Demo.short_id_row; Demo.long_id_row] 0
              Demo.short_id_row Demo.short_id_record eq_refl)
    as [Hshort _].
  destruct Hshort as [_ Hrow]; [vm_compute; lia|].
  split; [vm_compute; reflexivity|].
  rewrite Hrow. vm_compute. reflexivity.
Defined.

(** C8, as stated, fails: the spreadsheet processor resolves a short id
    for the payload and leaves the record's own id field as it was. *)
Lemma processor_keeps_record_id :
  String.length "054" < 5 ∧
  Processor.tradingPartnerServiceId
    (Processor.create_payload Demo.aetna_directory Demo.short_id_record).1
    = "60054" ∧
  (Processor.create_payload Demo.aetna_directory Demo.short_id_record).2
    !! "payer id" = Some (Val "054") ∧
  (Processor.create_payload Demo.aetna_directory Demo.short_id_record).2
    !! "ECS ID" = None.
Proof. split; [cbn; lia|]. vm_compute. done. Qed.
